(** * MCS-Backend: the content transfer subsystem

    A shallow embedding of the chunked upload service
    ([UploadService] in internal/services/statistics_service.go) and of the
    batch download service ([DownloadService] in
    internal/services/download_service.go), with the properties of the
    upload session and of the archive task life cycle.

    Conventions of the embedding:
    - Go's [int] and [int64] are [Z] (wrap-around written out where the code
      does arithmetic), [uint] is [N], [string] is [string], [[]byte] is
      [list byte], [time.Time] is a number of seconds ([Z]);
    - the package-level map [uploadSessions] is a [gmap string UploadSession];
      a session is only reachable through its entry in that map, so the
      in-place mutation of [*UploadSession] is an update of the entry;
    - the file system is a [gmap string (list byte)] from paths to contents;
      directories are implicit, so [os.MkdirAll] is the identity and
      [os.Create] always succeeds, while [os.Open] fails on a path that holds
      no file;
    - the database is a record of tables; a table is the list of its rows in
      primary-key order; statements never fail;
    - a function that returns [(T, error)] returns a [result]. *)

From stdpp Require Import gmap strings list fin_maps pretty.
From Stdlib Require Import ZArith Strings.Byte Strings.Ascii.

Open Scope Z_scope.

#[local] Set Warnings "-clear-no-such-hyp".

(** ** crypto/md5 and the [%x] verb

    [md5.Sum] as RFC 1321 defines it, on 32-bit words carried in [Z]. *)
Module MD5.

Definition mask32 (x : Z) : Z := Z.land x 0xffffffff.

Definition rotl32 (x : Z) (c : Z) : Z :=
  mask32 (Z.lor (Z.shiftl x c) (Z.shiftr x (32 - c))).

Definition not32 (x : Z) : Z := Z.lxor x 0xffffffff.

Definition shifts : list Z :=
  [7; 12; 17; 22; 7; 12; 17; 22; 7; 12; 17; 22; 7; 12; 17; 22;
   5; 9; 14; 20; 5; 9; 14; 20; 5; 9; 14; 20; 5; 9; 14; 20;
   4; 11; 16; 23; 4; 11; 16; 23; 4; 11; 16; 23; 4; 11; 16; 23;
   6; 10; 15; 21; 6; 10; 15; 21; 6; 10; 15; 21; 6; 10; 15; 21].

Definition sines : list Z :=
  [0xd76aa478; 0xe8c7b756; 0x242070db; 0xc1bdceee; 0xf57c0faf; 0x4787c62a; 0xa8304613; 0xfd469501;
   0x698098d8; 0x8b44f7af; 0xffff5bb1; 0x895cd7be; 0x6b901122; 0xfd987193; 0xa679438e; 0x49b40821;
   0xf61e2562; 0xc040b340; 0x265e5a51; 0xe9b6c7aa; 0xd62f105d; 0x02441453; 0xd8a1e681; 0xe7d3fbc8;
   0x21e1cde6; 0xc33707d6; 0xf4d50d87; 0x455a14ed; 0xa9e3e905; 0xfcefa3f8; 0x676f02d9; 0x8d2a4c8a;
   0xfffa3942; 0x8771f681; 0x6d9d6122; 0xfde5380c; 0xa4beea44; 0x4bdecfa9; 0xf6bb4b60; 0xbebfbc70;
   0x289b7ec6; 0xeaa127fa; 0xd4ef3085; 0x04881d05; 0xd9d4d039; 0xe6db99e5; 0x1fa27cf8; 0xc4ac5665;
   0xf4292244; 0x432aff97; 0xab9423a7; 0xfc93a039; 0x655b59c3; 0x8f0ccc92; 0xffeff47d; 0x85845dd1;
   0x6fa87e4f; 0xfe2ce6e0; 0xa3014314; 0x4e0811a1; 0xf7537e82; 0xbd3af235; 0x2ad7d2bb; 0xeb86d391].

(** The chaining value [(a, b, c, d)]. *)
Record digest := Digest { dA : Z; dB : Z; dC : Z; dD : Z }.

Definition init : digest :=
  Digest 0x67452301 0xefcdab89 0x98badcfe 0x10325476.

(** Little-endian 32-bit words of a byte sequence (its length a multiple
    of four). *)
Fixpoint words (bs : list Z) : list Z :=
  match bs with
  | b0 :: b1 :: b2 :: b3 :: rest =>
      (b0 + Z.shiftl b1 8 + Z.shiftl b2 16 + Z.shiftl b3 24) :: words rest
  | _ => []
  end.

Definition round_fun (i : Z) (b c d : Z) : Z * Z :=
  if i <? 16 then (Z.lor (Z.land b c) (Z.land (not32 b) d), i)
  else if i <? 32 then (Z.lor (Z.land d b) (Z.land (not32 d) c), (5 * i + 1) mod 16)
  else if i <? 48 then (Z.lxor (Z.lxor b c) d, (3 * i + 5) mod 16)
  else (Z.lxor c (Z.lor b (not32 d)), (7 * i) mod 16).

Definition step (m : list Z) (s : digest) (i : Z) : digest :=
  let '(f, g) := round_fun i (dB s) (dC s) (dD s) in
  let k := default 0 (sines !! Z.to_nat i) in
  let r := default 0 (shifts !! Z.to_nat i) in
  let w := default 0 (m !! Z.to_nat g) in
  let f' := mask32 (f + dA s + k + w) in
  Digest (dD s) (mask32 (dB s + rotl32 f' r)) (dB s) (dC s).

Definition block (s : digest) (m : list Z) : digest :=
  let s' := foldl (step m) s (seqZ 0 64) in
  Digest (mask32 (dA s + dA s')) (mask32 (dB s + dB s'))
         (mask32 (dC s + dC s')) (mask32 (dD s + dD s')).

Fixpoint chunks16 (fuel : nat) (ws : list Z) : list (list Z) :=
  match fuel with
  | O => []
  | S fuel' =>
      match ws with
      | [] => []
      | _ => take 16 ws :: chunks16 fuel' (drop 16 ws)
      end
  end.

Definition le_bytes (n : nat) (x : Z) : list Z :=
  map (fun k => Z.land (Z.shiftr x (8 * Z.of_nat k)) 0xff) (seq 0 n).

Definition pad (bs : list Z) : list Z :=
  let len := Z.of_nat (length bs) in
  let zeros := Z.to_nat ((55 - len) mod 64) in
  bs ++ [0x80] ++ replicate zeros 0 ++ le_bytes 8 ((8 * len) mod 2 ^ 64).

(** [md5.Sum]: the sixteen bytes of the digest. *)
Definition Sum (data : list byte) : list Z :=
  let ws := words (pad (map (fun b => Z.of_N (Byte.to_N b)) data)) in
  let s := foldl block init (chunks16 (length ws) ws) in
  le_bytes 4 (dA s) ++ le_bytes 4 (dB s) ++ le_bytes 4 (dC s) ++ le_bytes 4 (dD s).

Definition hex_digit (x : Z) : string :=
  String.substring (Z.to_nat x) 1 "0123456789abcdef".

(** [fmt.Sprintf("%x", h)] on a byte array: two lower-case digits a byte. *)
Definition hex (bs : list Z) : string :=
  foldr (fun b acc => hex_digit (b / 16) +:+ hex_digit (b mod 16) +:+ acc) "" bs.

End MD5.

(** ** The file system: os and path/filepath *)
Module Fs.

(** [filepath.Join] of a directory and an element. The lexical cleaning that
    [filepath.Join] also does is not modelled: paths are taken as clean. *)
Definition filepath_Join (dir name : string) : string := dir +:+ "/" +:+ name.

(** [os.Create]: the file exists afterwards and is empty. *)
Definition os_Create (path : string) (fs : gmap string (list byte))
  : gmap string (list byte) := <[path := []]> fs.

(** [os.Open] followed by reading the file to its end. *)
Definition os_Open (path : string) (fs : gmap string (list byte))
  : option (list byte) := fs !! path.

(** A write through an open handle positioned at the end of the file. *)
Definition file_Write (path : string) (data : list byte)
    (fs : gmap string (list byte)) : gmap string (list byte) :=
  <[path := default [] (fs !! path) ++ data]> fs.

(** [os.Remove] with its error dropped. *)
Definition os_Remove (path : string) (fs : gmap string (list byte))
  : gmap string (list byte) := delete path fs.

Definition under (dir path : string) : bool :=
  bool_decide (path = dir) || String.prefix (dir +:+ "/") path.

(** [os.RemoveAll]: the path and everything below it. *)
Definition os_RemoveAll (dir : string) (fs : gmap string (list byte))
  : gmap string (list byte) :=
  filter (fun kv => under dir kv.1 = false) fs.

(** [filepath.Ext]: the suffix from the last dot of the last element. *)
Fixpoint ext_scan (acc : string) (rev_path : list Ascii.ascii) : string :=
  match rev_path with
  | [] => ""
  | c :: rest =>
      if bool_decide (c = "/"%char) then ""
      else if bool_decide (c = "."%char) then String c acc
      else ext_scan (String c acc) rest
  end.

Definition filepath_Ext (path : string) : string :=
  ext_scan "" (reverse (String.list_ascii_of_string path)).

(** [strings.ToLower], on the ASCII letters. *)
Definition lower_ascii (c : Ascii.ascii) : Ascii.ascii :=
  let n := Ascii.nat_of_ascii c in
  if bool_decide (65 <= n <= 90)%nat then Ascii.ascii_of_nat (n + 32) else c.

Fixpoint strings_ToLower (s : string) : string :=
  match s with
  | EmptyString => EmptyString
  | String c rest => String (lower_ascii c) (strings_ToLower rest)
  end.

End Fs.

(** ** Results *)

(** The outcome of a Go function returning [(T, error)]; [Panic] is a
    run-time panic (raised before any effect in every function below). *)
Inductive result (E A : Type) : Type :=
| Ok (a : A)
| Err (e : E)
| Panic.
Arguments Ok {E A} a.
Arguments Err {E A} e.
Arguments Panic {E A}.

(** [int64] arithmetic wraps around. *)
Definition wrap64 (x : Z) : Z := (x + 2 ^ 63) mod 2 ^ 64 - 2 ^ 63.

(** ** The data model (internal/models) *)
Module models.

(** [models.File] (internal/models/file.go). *)
Record File := {
  f_ID : N;
  f_FileName : string;
  f_FilePath : string;
  f_FileSize : Z;
  f_MD5Hash : string;
  f_MimeType : string;
  f_OwnerID : N;
  f_FolderID : N;
  f_WorkflowID : N;
  f_TaskID : N;
  f_IsPrivate : bool;
  f_IsDeleted : bool;
  f_DeletedAt : option Z;
  f_Description : string;
  f_CreatedAt : Z;
  f_UpdatedAt : Z
}.

(** [models.DownloadTask] (internal/models/download.go). [t_DeletedAt] is the
    [gorm.DeletedAt] column: deleting a task sets it, and every query on
    the table only sees the rows where it is unset. *)
Record DownloadTask := {
  t_ID : N;
  t_UserID : N;
  t_TaskName : string;
  t_FileIDs : string;
  t_Status : string;
  t_ZipFilePath : string;
  t_FileSize : Z;
  t_DownloadURL : string;
  t_ExpiresAt : option Z;
  t_ErrorMsg : string;
  t_CreatedAt : Z;
  t_UpdatedAt : Z;
  t_DeletedAt : option Z
}.

(** [models.BatchDownloadRequest]. *)
Record BatchDownloadRequest := {
  bd_FileIDs : list N;
  bd_TaskName : string
}.

(** [models.DownloadTaskInfo]. *)
Record DownloadTaskInfo := {
  ti_ID : N;
  ti_TaskName : string;
  ti_Status : string;
  ti_FileCount : Z;
  ti_FileSize : Z;
  ti_DownloadURL : string;
  ti_ExpiresAt : option Z;
  ti_ErrorMsg : string;
  ti_CreatedAt : Z;
  ti_UpdatedAt : Z
}.

End models.
Export models.

(** ** The database *)

(** The tables the two services use. [files_seq] and [tasks_seq] are the
    auto-increment counters of the primary keys; [workflow_members] holds the
    pairs (workflow id, user id). *)
Record DB := {
  files : list File;
  files_seq : N;
  download_tasks : list DownloadTask;
  tasks_seq : N;
  workflow_members : list (N * N)
}.

(** [db.Create(&file)]: the row gets the next primary key and both
    timestamps, and the struct passed in is updated to the stored row.
    Column defaults are not modelled. *)
Definition db_create_file (now : Z) (f : File) (d : DB) : File * DB :=
  let id := (files_seq d + 1)%N in
  let row := {| f_ID := id; f_FileName := f_FileName f; f_FilePath := f_FilePath f;
                f_FileSize := f_FileSize f; f_MD5Hash := f_MD5Hash f;
                f_MimeType := f_MimeType f; f_OwnerID := f_OwnerID f;
                f_FolderID := f_FolderID f; f_WorkflowID := f_WorkflowID f;
                f_TaskID := f_TaskID f; f_IsPrivate := f_IsPrivate f;
                f_IsDeleted := f_IsDeleted f; f_DeletedAt := f_DeletedAt f;
                f_Description := f_Description f;
                f_CreatedAt := now; f_UpdatedAt := now |} in
  (row, {| files := files d ++ [row]; files_seq := id;
           download_tasks := download_tasks d; tasks_seq := tasks_seq d;
           workflow_members := workflow_members d |}).

(** ** The upload service (internal/services/statistics_service.go) *)

(** [config.File], the two paths the upload service reads. *)
Record Config := {
  UploadPath : string;
  TempPath : string
}.

(** [InitUploadRequest]. The handler binds it from JSON; the fields tagged
    [binding:"required"] (file name, size, hash, chunk size) are never the
    zero value when the service is called. *)
Record InitUploadRequest := {
  req_FileName : string;
  req_FileSize : Z;
  req_MD5Hash : string;
  req_ChunkSize : Z;
  req_FolderID : N;
  req_WorkflowID : N;
  req_TaskID : N;
  req_Description : string;
  req_IsPrivate : bool
}.

(** The service's own [File], the view of a stored row it returns. *)
Record FileInfo := {
  fi_ID : N;
  fi_FileName : string;
  fi_FilePath : string;
  fi_FileSize : Z;
  fi_MD5Hash : string;
  fi_MimeType : string;
  fi_OwnerID : N;
  fi_FolderID : N;
  fi_WorkflowID : N;
  fi_TaskID : N;
  fi_IsPrivate : bool;
  fi_Description : string;
  fi_CreatedAt : Z;
  fi_UpdatedAt : Z
}.

(** [InitUploadResponse]. *)
Record InitUploadResponse := {
  resp_UploadID : string;
  resp_TotalChunks : Z;
  resp_ChunkSize : Z;
  resp_ExistingFile : option FileInfo;
  resp_IsSecUpload : bool
}.

(** [UploadProgress], without its floating-point percentage. *)
Record UploadProgress := {
  up_UploadID : string;
  up_FileName : string;
  up_FileSize : Z;
  up_UploadedSize : Z;
  up_TotalChunks : Z;
  up_UploadedChunks : Z;
  up_Status : string;
  up_CreatedAt : Z
}.

(** [UploadSession]. *)
Record UploadSession := {
  us_UploadID : string;
  us_FileName : string;
  us_FileSize : Z;
  us_MD5Hash : string;
  us_ChunkSize : Z;
  us_TotalChunks : Z;
  us_UploadedChunks : gmap Z bool;
  us_UserID : N;
  us_FolderID : N;
  us_WorkflowID : N;
  us_TaskID : N;
  us_Description : string;
  us_IsPrivate : bool;
  us_CreatedAt : Z;
  us_TempDir : string
}.

(** The process state both services work on: the package-level map
    [uploadSessions], the disk and the database. *)
Record World := {
  uploadSessions : gmap string UploadSession;
  disk : gmap string (list byte);
  db : DB
}.

(** The errors the upload service returns, and their messages. *)
Inductive upload_error :=
| ErrSessionNotFound
| ErrChunkMD5
| ErrChunkMissing (i : Z)
| ErrOpenChunk (path : string)
| ErrFileMD5.

Definition upload_error_message (e : upload_error) : string :=
  match e with
  | ErrSessionNotFound => "上传会话不存在"
  | ErrChunkMD5 => "分片MD5校验失败"
  | ErrChunkMissing i => "分片 " +:+ pretty i +:+ " 未上传"
  | ErrOpenChunk path =>
      "打开分片文件失败: open " +:+ path +:+ ": no such file or directory"
  | ErrFileMD5 => "文件MD5校验失败"
  end.

(** The view of a stored row that [InitUpload] and [CompleteUpload] return. *)
Definition file_info (f : File) : FileInfo :=
  {| fi_ID := f_ID f; fi_FileName := f_FileName f; fi_FilePath := f_FilePath f;
     fi_FileSize := f_FileSize f; fi_MD5Hash := f_MD5Hash f;
     fi_MimeType := f_MimeType f; fi_OwnerID := f_OwnerID f;
     fi_FolderID := f_FolderID f; fi_WorkflowID := f_WorkflowID f;
     fi_TaskID := f_TaskID f; fi_IsPrivate := f_IsPrivate f;
     fi_Description := f_Description f;
     fi_CreatedAt := f_CreatedAt f; fi_UpdatedAt := f_UpdatedAt f |}.

(** The instant-upload query:
    [Where("md5_hash = ? AND file_size = ? AND is_deleted = false").First]. *)
Definition dedup_match (md5 : string) (size : Z) (f : File) : bool :=
  bool_decide (f_MD5Hash f = md5) && bool_decide (f_FileSize f = size)
  && negb (f_IsDeleted f).

Definition find_existing (md5 : string) (size : Z) (d : DB) : option File :=
  List.find (dedup_match md5 size) (files d).

(** [session.UploadedChunks[i]], false for a missing key. *)
Definition uploaded (s : UploadSession) (i : Z) : bool :=
  default false (us_UploadedChunks s !! i).

(** The indices marked received in a session. *)
Definition received_indices (s : UploadSession) : gset Z :=
  dom (filter (fun kv => kv.2 = true) (us_UploadedChunks s)).

Definition chunk_path (tempDir : string) (i : Z) : string :=
  Fs.filepath_Join tempDir ("chunk_" +:+ pretty i).

Definition final_path (cfg : Config) (s : UploadSession) : string :=
  Fs.filepath_Join (UploadPath cfg) (us_MD5Hash s +:+ "_" +:+ us_FileName s).

(** [getMimeType]. *)
Definition mimeTypes : list (string * string) :=
  [(".jpg", "image/jpeg"); (".jpeg", "image/jpeg"); (".png", "image/png");
   (".gif", "image/gif"); (".pdf", "application/pdf");
   (".doc", "application/msword");
   (".docx", "application/vnd.openxmlformats-officedocument.wordprocessingml.document");
   (".xls", "application/vnd.ms-excel");
   (".xlsx", "application/vnd.openxmlformats-officedocument.spreadsheetml.sheet");
   (".ppt", "application/vnd.ms-powerpoint");
   (".pptx", "application/vnd.openxmlformats-officedocument.presentationml.presentation");
   (".txt", "text/plain"); (".zip", "application/zip");
   (".rar", "application/x-rar-compressed"); (".mp4", "video/mp4");
   (".avi", "video/x-msvideo"); (".mp3", "audio/mpeg"); (".wav", "audio/wav")].

Definition getMimeType (fileName : string) : string :=
  let ext := Fs.strings_ToLower (Fs.filepath_Ext fileName) in
  match List.find (fun kv => bool_decide (kv.1 = ext)) mimeTypes with
  | Some kv => kv.2
  | None => "application/octet-stream"
  end.

Definition with_sessions (m : gmap string UploadSession) (w : World) : World :=
  {| uploadSessions := m; disk := disk w; db := db w |}.

Definition with_disk (fs : gmap string (list byte)) (w : World) : World :=
  {| uploadSessions := uploadSessions w; disk := fs; db := db w |}.

Definition with_db (d : DB) (w : World) : World :=
  {| uploadSessions := uploadSessions w; disk := disk w; db := d |}.

(** [session.UploadedChunks[chunkIndex] = true]. *)
Definition mark_uploaded (i : Z) (s : UploadSession) : UploadSession :=
  {| us_UploadID := us_UploadID s; us_FileName := us_FileName s;
     us_FileSize := us_FileSize s; us_MD5Hash := us_MD5Hash s;
     us_ChunkSize := us_ChunkSize s; us_TotalChunks := us_TotalChunks s;
     us_UploadedChunks := <[i := true]> (us_UploadedChunks s);
     us_UserID := us_UserID s; us_FolderID := us_FolderID s;
     us_WorkflowID := us_WorkflowID s; us_TaskID := us_TaskID s;
     us_Description := us_Description s; us_IsPrivate := us_IsPrivate s;
     us_CreatedAt := us_CreatedAt s; us_TempDir := us_TempDir s |}.

(** [InitUpload]. [now] is [time.Now()]. The division panics on a zero
    chunk size, before anything is written. *)
Definition InitUpload (cfg : Config) (now : Z) (req : InitUploadRequest)
    (userID : N) (w : World) : result upload_error InitUploadResponse * World :=
  match find_existing (req_MD5Hash req) (req_FileSize req) (db w) with
  | Some existingFile =>
      let newFile :=
        {| f_ID := 0; f_FileName := req_FileName req;
           f_FilePath := f_FilePath existingFile;
           f_FileSize := f_FileSize existingFile;
           f_MD5Hash := f_MD5Hash existingFile;
           f_MimeType := f_MimeType existingFile;
           f_OwnerID := userID; f_FolderID := req_FolderID req;
           f_WorkflowID := req_WorkflowID req; f_TaskID := req_TaskID req;
           f_IsPrivate := req_IsPrivate req; f_IsDeleted := false;
           f_DeletedAt := None; f_Description := req_Description req;
           f_CreatedAt := 0; f_UpdatedAt := 0 |} in
      let '(stored, d) := db_create_file now newFile (db w) in
      (Ok {| resp_UploadID := ""; resp_TotalChunks := 0; resp_ChunkSize := 0;
             resp_ExistingFile := Some (file_info stored);
             resp_IsSecUpload := true |},
       with_db d w)
  | None =>
      if req_ChunkSize req =? 0 then (Panic, w)
      else
        let totalChunks :=
          wrap64 (Z.quot (wrap64 (req_FileSize req + req_ChunkSize req - 1))
                         (req_ChunkSize req)) in
        let uploadID :=
          pretty userID +:+ "_" +:+ req_MD5Hash req +:+ "_" +:+ pretty now in
        let tempDir := Fs.filepath_Join (TempPath cfg) uploadID in
        let session :=
          {| us_UploadID := uploadID; us_FileName := req_FileName req;
             us_FileSize := req_FileSize req; us_MD5Hash := req_MD5Hash req;
             us_ChunkSize := req_ChunkSize req; us_TotalChunks := totalChunks;
             us_UploadedChunks := ∅;
             us_UserID := userID; us_FolderID := req_FolderID req;
             us_WorkflowID := req_WorkflowID req; us_TaskID := req_TaskID req;
             us_Description := req_Description req;
             us_IsPrivate := req_IsPrivate req;
             us_CreatedAt := now; us_TempDir := tempDir |} in
        (Ok {| resp_UploadID := uploadID; resp_TotalChunks := totalChunks;
               resp_ChunkSize := req_ChunkSize req;
               resp_ExistingFile := None; resp_IsSecUpload := false |},
         with_sessions (<[uploadID := session]> (uploadSessions w)) w)
  end.

(** [UploadChunk]; [None] is the nil error. *)
Definition UploadChunk (uploadID : string) (chunkIndex : Z)
    (chunkData : list byte) (chunkMD5 : string) (w : World)
  : option upload_error * World :=
  match uploadSessions w !! uploadID with
  | None => (Some ErrSessionNotFound, w)
  | Some session =>
      if negb (bool_decide (MD5.hex (MD5.Sum chunkData) = chunkMD5))
      then (Some ErrChunkMD5, w)
      else
        let chunkPath := chunk_path (us_TempDir session) chunkIndex in
        let fs := Fs.file_Write chunkPath chunkData
                    (Fs.os_Create chunkPath (disk w)) in
        (None,
         with_sessions
           (<[uploadID := mark_uploaded chunkIndex session]> (uploadSessions w))
           (with_disk fs w))
  end.

(** The first loop of [CompleteUpload]: the least index below
    [TotalChunks] that is not marked. *)
Definition first_missing (s : UploadSession) : option Z :=
  List.find (fun i => negb (uploaded s i)) (seqZ 0 (us_TotalChunks s)).

(** The second loop: each chunk file, in index order, is appended to the
    final file. A chunk file that cannot be opened ends the loop; the final
    file keeps what was appended so far. *)
Fixpoint merge_chunks (tempDir finalPath : string) (idxs : list Z)
    (fs : gmap string (list byte)) : option string * gmap string (list byte) :=
  match idxs with
  | [] => (None, fs)
  | i :: rest =>
      match Fs.os_Open (chunk_path tempDir i) fs with
      | None => (Some (chunk_path tempDir i), fs)
      | Some data =>
          merge_chunks tempDir finalPath rest (Fs.file_Write finalPath data fs)
      end
  end.

(** [CompleteUpload]. *)
Definition CompleteUpload (cfg : Config) (now : Z) (uploadID : string)
    (w : World) : result upload_error FileInfo * World :=
  match uploadSessions w !! uploadID with
  | None => (Err ErrSessionNotFound, w)
  | Some session =>
      match first_missing session with
      | Some i => (Err (ErrChunkMissing i), w)
      | None =>
          let finalPath := final_path cfg session in
          match merge_chunks (us_TempDir session) finalPath
                  (seqZ 0 (us_TotalChunks session))
                  (Fs.os_Create finalPath (disk w)) with
          | (Some missing, fs) => (Err (ErrOpenChunk missing), with_disk fs w)
          | (None, fs) =>
              let merged := default [] (fs !! finalPath) in
              if negb (bool_decide (MD5.hex (MD5.Sum merged) = us_MD5Hash session))
              then (Err ErrFileMD5, with_disk fs w)
              else
                let file :=
                  {| f_ID := 0; f_FileName := us_FileName session;
                     f_FilePath := finalPath;
                     f_FileSize := us_FileSize session;
                     f_MD5Hash := us_MD5Hash session;
                     f_MimeType := getMimeType (us_FileName session);
                     f_OwnerID := us_UserID session;
                     f_FolderID := us_FolderID session;
                     f_WorkflowID := us_WorkflowID session;
                     f_TaskID := us_TaskID session;
                     f_IsPrivate := us_IsPrivate session; f_IsDeleted := false;
                     f_DeletedAt := None;
                     f_Description := us_Description session;
                     f_CreatedAt := 0; f_UpdatedAt := 0 |} in
                let '(stored, d) := db_create_file now file (db w) in
                (Ok (file_info stored),
                 {| uploadSessions := delete uploadID (uploadSessions w);
                    disk := Fs.os_RemoveAll (us_TempDir session) fs;
                    db := d |})
          end
      end
  end.

(** The loop of [GetUploadProgress]: the count of marked indices below
    [TotalChunks] and the bytes they stand for. *)
Definition progress_step (s : UploadSession) (acc : Z * Z) (i : Z) : Z * Z :=
  if uploaded s i then
    (acc.1 + 1,
     if i =? us_TotalChunks s - 1
     then wrap64 (acc.2 + wrap64 (us_FileSize s - wrap64 (i * us_ChunkSize s)))
     else wrap64 (acc.2 + us_ChunkSize s))
  else acc.

Definition progress_count (s : UploadSession) : Z * Z :=
  foldl (progress_step s) (0, 0) (seqZ 0 (us_TotalChunks s)).

(** [GetUploadProgress]. *)
Definition GetUploadProgress (uploadID : string) (w : World)
  : result upload_error UploadProgress :=
  match uploadSessions w !! uploadID with
  | None => Err ErrSessionNotFound
  | Some session =>
      let '(uploadedChunks, uploadedSize) := progress_count session in
      Ok {| up_UploadID := uploadID; up_FileName := us_FileName session;
            up_FileSize := us_FileSize session; up_UploadedSize := uploadedSize;
            up_TotalChunks := us_TotalChunks session;
            up_UploadedChunks := uploadedChunks;
            up_Status := if uploadedChunks =? us_TotalChunks session
                         then "completed" else "uploading";
            up_CreatedAt := us_CreatedAt session |}
  end.

(** [CancelUpload]. *)
Definition CancelUpload (uploadID : string) (w : World)
  : option upload_error * World :=
  match uploadSessions w !! uploadID with
  | None => (Some ErrSessionNotFound, w)
  | Some session =>
      (None,
       {| uploadSessions := delete uploadID (uploadSessions w);
          disk := Fs.os_RemoveAll (us_TempDir session) (disk w);
          db := db w |})
  end.

(** ** The download service (internal/services/download_service.go) *)

(** encoding/json on [[]uint] and archive/zip, which the service calls and
    the repository does not define. [json_Unmarshal] gives the decoded
    slice or the message of its error. [zip_bytes] is the container that
    [zip.Writer] leaves in its file once closed, for the entries (name,
    content) created so far; [zip_flushed] is the size of that file before
    the writer is closed, which is when the service reads it. *)
Class Codecs := {
  json_Marshal : list N -> string;
  json_Unmarshal : string -> string + list N;
  zip_bytes : list (string * list byte) -> list byte;
  zip_flushed : list (string * list byte) -> Z
}.

(** [DownloadService], without its database handle. *)
Record DownloadService := {
  uploadPath : string;
  downloadPath : string;
  baseURL : string
}.

Inductive download_error :=
| ErrNoDownloadableFiles
| ErrTaskNotFound.

Definition download_error_message (e : download_error) : string :=
  match e with
  | ErrNoDownloadableFiles => "没有可下载的文件"
  | ErrTaskNotFound => "下载任务不存在"
  end.

(** A row of [download_tasks] that queries see: not soft-deleted. *)
Definition visible (t : DownloadTask) : bool :=
  bool_decide (t_DeletedAt t = None).

(** [db.First(&task, taskID)]. *)
Definition find_task (taskID : N) (d : DB) : option DownloadTask :=
  List.find (fun t => bool_decide (t_ID t = taskID) && visible t)
            (download_tasks d).

(** [db.Model(&DownloadTask{}).Where(cond).Updates(u)]: every visible row
    that satisfies the condition is rewritten. *)
Definition update_tasks (cond : DownloadTask -> bool)
    (u : DownloadTask -> DownloadTask) (d : DB) : DB :=
  {| files := files d; files_seq := files_seq d;
     download_tasks :=
       (fun t => if cond t && visible t then u t else t) <$> download_tasks d;
     tasks_seq := tasks_seq d;
     workflow_members := workflow_members d |}.

Definition has_id (taskID : N) (t : DownloadTask) : bool :=
  bool_decide (t_ID t = taskID).

(** [Update("status", "processing")]. *)
Definition set_processing (now : Z) (t : DownloadTask) : DownloadTask :=
  {| t_ID := t_ID t; t_UserID := t_UserID t; t_TaskName := t_TaskName t;
     t_FileIDs := t_FileIDs t; t_Status := "processing";
     t_ZipFilePath := t_ZipFilePath t; t_FileSize := t_FileSize t;
     t_DownloadURL := t_DownloadURL t; t_ExpiresAt := t_ExpiresAt t;
     t_ErrorMsg := t_ErrorMsg t; t_CreatedAt := t_CreatedAt t;
     t_UpdatedAt := now; t_DeletedAt := t_DeletedAt t |}.

(** The update map of [updateTaskError]. *)
Definition set_failed (now : Z) (errorMsg : string) (t : DownloadTask)
  : DownloadTask :=
  {| t_ID := t_ID t; t_UserID := t_UserID t; t_TaskName := t_TaskName t;
     t_FileIDs := t_FileIDs t; t_Status := "failed";
     t_ZipFilePath := t_ZipFilePath t; t_FileSize := t_FileSize t;
     t_DownloadURL := t_DownloadURL t; t_ExpiresAt := t_ExpiresAt t;
     t_ErrorMsg := errorMsg; t_CreatedAt := t_CreatedAt t;
     t_UpdatedAt := now; t_DeletedAt := t_DeletedAt t |}.

(** The update map at the end of [processDownloadTask]. *)
Definition set_completed (now : Z) (zipFilePath : string) (size : Z)
    (downloadURL : string) (expiresAt : Z) (t : DownloadTask) : DownloadTask :=
  {| t_ID := t_ID t; t_UserID := t_UserID t; t_TaskName := t_TaskName t;
     t_FileIDs := t_FileIDs t; t_Status := "completed";
     t_ZipFilePath := zipFilePath; t_FileSize := size;
     t_DownloadURL := downloadURL; t_ExpiresAt := Some expiresAt;
     t_ErrorMsg := t_ErrorMsg t; t_CreatedAt := t_CreatedAt t;
     t_UpdatedAt := now; t_DeletedAt := t_DeletedAt t |}.

(** [Delete(&DownloadTask{})] on a model with a [gorm.DeletedAt] column. *)
Definition set_deleted (now : Z) (t : DownloadTask) : DownloadTask :=
  {| t_ID := t_ID t; t_UserID := t_UserID t; t_TaskName := t_TaskName t;
     t_FileIDs := t_FileIDs t; t_Status := t_Status t;
     t_ZipFilePath := t_ZipFilePath t; t_FileSize := t_FileSize t;
     t_DownloadURL := t_DownloadURL t; t_ExpiresAt := t_ExpiresAt t;
     t_ErrorMsg := t_ErrorMsg t; t_CreatedAt := t_CreatedAt t;
     t_UpdatedAt := t_UpdatedAt t; t_DeletedAt := Some now |}.

(** [updateTaskError]. *)
Definition updateTaskError (now : Z) (taskID : N) (errorMsg : string) (d : DB)
  : DB := update_tasks (has_id taskID) (set_failed now errorMsg) d.

(** [hasFilePermission]. *)
Definition hasFilePermission (userID : N) (file : File) (d : DB) : bool :=
  bool_decide (f_OwnerID file = userID)
  || bool_decide (0 < length (filter (fun m => m = (f_WorkflowID file, userID))
                                     (workflow_members d)))%nat.

(** [db.Where("id IN ?", fileIDs).Find(&files)]. *)
Definition files_in (fileIDs : list N) (d : DB) : list File :=
  filter (fun f => f_ID f ∈ fileIDs) (files d).

(** [validateFilePermissions]. *)
Definition validateFilePermissions (userID : N) (fileIDs : list N) (d : DB)
  : list N :=
  map f_ID (filter (fun f => hasFilePermission userID f d = true)
                   (files_in fileIDs d)).

Definition task_info (fileCount : Z) (t : DownloadTask) : DownloadTaskInfo :=
  {| ti_ID := t_ID t; ti_TaskName := t_TaskName t; ti_Status := t_Status t;
     ti_FileCount := fileCount; ti_FileSize := t_FileSize t;
     ti_DownloadURL := t_DownloadURL t; ti_ExpiresAt := t_ExpiresAt t;
     ti_ErrorMsg := t_ErrorMsg t; ti_CreatedAt := t_CreatedAt t;
     ti_UpdatedAt := t_UpdatedAt t |}.

(** [db.Create(&task)]. *)
Definition db_create_task (now : Z) (userID : N) (taskName fileIDs : string)
    (d : DB) : DownloadTask * DB :=
  let id := (tasks_seq d + 1)%N in
  let row := {| t_ID := id; t_UserID := userID; t_TaskName := taskName;
                t_FileIDs := fileIDs; t_Status := "pending";
                t_ZipFilePath := ""; t_FileSize := 0; t_DownloadURL := "";
                t_ExpiresAt := None; t_ErrorMsg := "";
                t_CreatedAt := now; t_UpdatedAt := now; t_DeletedAt := None |} in
  (row, {| files := files d; files_seq := files_seq d;
           download_tasks := download_tasks d ++ [row]; tasks_seq := id;
           workflow_members := workflow_members d |}).

(** The message [updateTaskError] stores when a file cannot be opened. *)
Definition add_file_error (missing : string) : string :=
  "添加文件到ZIP失败: open " +:+ missing +:+ ": no such file or directory".

Section Download.
Context `{Codecs}.
Variable s : DownloadService.

(** [CreateBatchDownloadTask]. On success the third component is the id
    handed to [go s.processDownloadTask(task.ID)]. *)
Definition CreateBatchDownloadTask (now : Z) (userID : N)
    (req : BatchDownloadRequest) (w : World)
  : result download_error DownloadTaskInfo * World * option N :=
  let validFileIDs := validateFilePermissions userID (bd_FileIDs req) (db w) in
  match validFileIDs with
  | [] => (Err ErrNoDownloadableFiles, w, None)
  | _ =>
      let '(task, d) :=
        db_create_task now userID (bd_TaskName req)
                       (json_Marshal validFileIDs) (db w) in
      (Ok {| ti_ID := t_ID task; ti_TaskName := t_TaskName task;
             ti_Status := t_Status task;
             ti_FileCount := Z.of_nat (length validFileIDs);
             ti_FileSize := 0; ti_DownloadURL := ""; ti_ExpiresAt := None;
             ti_ErrorMsg := ""; ti_CreatedAt := t_CreatedAt task;
             ti_UpdatedAt := t_UpdatedAt task |},
       with_db d w, Some (t_ID task))
  end.

(** The loop of [processDownloadTask] over the files: [addFileToZip] opens
    the stored file and copies it into a new entry. The result is the entries
    written and, when a file cannot be opened, its path. *)
Fixpoint add_files (fs : gmap string (list byte)) (fls : list File)
    (entries : list (string * list byte))
  : list (string * list byte) * option string :=
  match fls with
  | [] => (entries, None)
  | file :: rest =>
      let filePath := Fs.filepath_Join (uploadPath s) (f_FilePath file) in
      match Fs.os_Open filePath fs with
      | None => (entries, Some filePath)
      | Some data => add_files fs rest (entries ++ [(f_FileName file, data)])
      end
  end.

Definition zip_file_name (task : DownloadTask) (now : Z) : string :=
  t_TaskName task +:+ "_" +:+ pretty (t_UserID task) +:+ "_" +:+ pretty now
  +:+ ".zip".

(** The first statement of [processDownloadTask]. *)
Definition mark_processing (now : Z) (taskID : N) (w : World) : World :=
  with_db (update_tasks (has_id taskID) (set_processing now) (db w)) w.

(** The rest of [processDownloadTask]. The deferred [zipWriter.Close] and
    [zipFile.Close] run on every return after the container was created, so
    the file then holds the container of the entries written. *)
Definition build_archive (now : Z) (taskID : N) (w : World) : World :=
  match find_task taskID (db w) with
  | None =>
      with_db (updateTaskError now taskID
                 "获取任务信息失败: record not found" (db w)) w
  | Some task =>
      match json_Unmarshal (t_FileIDs task) with
      | inl err =>
          with_db (updateTaskError now taskID
                     ("解析文件ID列表失败: " +:+ err) (db w)) w
      | inr fileIDs =>
          let fls := files_in fileIDs (db w) in
          let zipFileName := zip_file_name task now in
          let zipFilePath := Fs.filepath_Join (downloadPath s) zipFileName in
          let fs := Fs.os_Create zipFilePath (disk w) in
          match add_files fs fls [] with
          | (entries, Some missing) =>
              {| uploadSessions := uploadSessions w;
                 disk := <[zipFilePath := zip_bytes entries]> fs;
                 db := updateTaskError now taskID (add_file_error missing)
                         (db w) |}
          | (entries, None) =>
              let downloadURL :=
                baseURL s +:+ "/api/v1/download/zip/" +:+ zipFileName in
              let expiresAt := now + 24 * 3600 in
              {| uploadSessions := uploadSessions w;
                 disk := <[zipFilePath := zip_bytes entries]> fs;
                 db := update_tasks (has_id taskID)
                         (set_completed now zipFilePath (zip_flushed entries)
                                        downloadURL expiresAt) (db w) |}
          end
      end
  end.

(** [processDownloadTask], run without interruption. *)
Definition processDownloadTask (now : Z) (taskID : N) (w : World) : World :=
  build_archive now taskID (mark_processing now taskID w).

(** [GetDownloadTask]. *)
Definition GetDownloadTask (userID taskID : N) (w : World)
  : result download_error DownloadTaskInfo :=
  match List.find (fun t => bool_decide (t_ID t = taskID)
                            && bool_decide (t_UserID t = userID) && visible t)
                  (download_tasks (db w)) with
  | None => Err ErrTaskNotFound
  | Some task =>
      let fileCount :=
        match json_Unmarshal (t_FileIDs task) with
        | inr fileIDs => Z.of_nat (length fileIDs)
        | inl _ => 0
        end in
      Ok (task_info fileCount task)
  end.

End Download.

(** The condition of the expiry sweep:
    [expires_at < now AND status = 'completed']. *)
Definition expired (now : Z) (t : DownloadTask) : bool :=
  match t_ExpiresAt t with
  | Some e => bool_decide (e < now)
  | None => false
  end && bool_decide (t_Status t = "completed").

(** [CleanExpiredTasks]: the container of every selected task is removed
    when the task records a path, then the selected rows are deleted. *)
Definition remove_zip (fs : gmap string (list byte)) (t : DownloadTask)
  : gmap string (list byte) :=
  if bool_decide (t_ZipFilePath t <> "") then Fs.os_Remove (t_ZipFilePath t) fs
  else fs.

Definition CleanExpiredTasks (now : Z) (w : World) : World :=
  let expiredTasks :=
    filter (fun t => expired now t && visible t = true) (download_tasks (db w)) in
  {| uploadSessions := uploadSessions w;
     disk := foldl remove_zip (disk w) expiredTasks;
     db := update_tasks (expired now) (set_deleted now) (db w) |}.

(** ** The background builder as a transition system

    [CreateBatchDownloadTask] starts [processDownloadTask] with a [go]
    statement, so the builder of a task runs interleaved with the requests
    and with the builders of other tasks. A goroutine is [spawned], then
    [running] once its first statement has marked the task, and gone once it
    has written the outcome. Everything else that happens in the process
    ([EvOther]: uploads, file operations) may change the sessions, the disk
    and the other tables, and leaves [download_tasks] alone. *)
Record System := {
  world : World;
  spawned : list N;
  running : list N
}.

Inductive event :=
| EvCreate (now : Z) (userID : N) (req : BatchDownloadRequest)
| EvBegin (now : Z) (taskID : N)
| EvFinish (now : Z) (taskID : N)
| EvClean (now : Z)
| EvOther (sessions : gmap string UploadSession) (fs : gmap string (list byte))
    (fls : list File) (fseq : N) (members : list (N * N)).

Definition without (taskID : N) (l : list N) : list N :=
  filter (fun x => x <> taskID) l.

Section Builder.
Context `{Codecs}.
Variable s : DownloadService.

Definition step (ev : event) (sys : System) : option System :=
  match ev with
  | EvCreate now userID req =>
      let '(_, w, started) :=
        CreateBatchDownloadTask now userID req (world sys) in
      Some {| world := w;
              spawned := spawned sys ++ from_option (fun x => [x]) [] started;
              running := running sys |}
  | EvBegin now taskID =>
      if bool_decide (taskID ∈ spawned sys) then
        Some {| world := mark_processing now taskID (world sys);
                spawned := without taskID (spawned sys);
                running := running sys ++ [taskID] |}
      else None
  | EvFinish now taskID =>
      if bool_decide (taskID ∈ running sys) then
        Some {| world := build_archive s now taskID (world sys);
                spawned := spawned sys;
                running := without taskID (running sys) |}
      else None
  | EvClean now =>
      Some {| world := CleanExpiredTasks now (world sys);
              spawned := spawned sys; running := running sys |}
  | EvOther sessions fs fls fseq members =>
      Some {| world :=
                {| uploadSessions := sessions; disk := fs;
                   db := {| files := fls; files_seq := fseq;
                            download_tasks := download_tasks (db (world sys));
                            tasks_seq := tasks_seq (db (world sys));
                            workflow_members := members |} |};
              spawned := spawned sys; running := running sys |}
  end.

Fixpoint run (evs : list event) (sys : System) : option System :=
  match evs with
  | [] => Some sys
  | ev :: rest =>
      match step ev sys with
      | Some sys' => run rest sys'
      | None => None
      end
  end.

End Builder.

(** A process that has just started: no builder goroutine exists. *)
Definition boot (w : World) : System :=
  {| world := w; spawned := []; running := [] |}.

(** The primary keys of [download_tasks] were all drawn from its counter. *)
Definition keys_drawn (d : DB) : bool :=
  forallb (fun t => (t_ID t <=? tasks_seq d)%N) (download_tasks d).

(** The transitions of a task's status that the specification allows. *)
Inductive transition : string -> string -> Prop :=
| pending_processing : transition "pending" "processing"
| processing_completed : transition "processing" "completed"
| processing_failed : transition "processing" "failed".





(** The indices recorded for a session id, none when there is no session. *)
Definition recorded (uploadID : string) (w : World) : gset Z :=
  from_option received_indices ∅ (uploadSessions w !! uploadID).


(** ** The invariant of the transition system *)

(** What a row looks like before its builder has finished: visible, and
    with nothing recorded by a builder. *)
Definition untouched (t : DownloadTask) : Prop :=
  t_DeletedAt t = None /\ t_ZipFilePath t = "" /\ t_DownloadURL t = ""
  /\ t_ExpiresAt t = None.

(** The invariant of the transition system: keys come from the counter, a
    task has at most one builder, the task of a spawned builder is pending
    and the task of a running builder is processing. *)
Record inv (sys : System) : Prop := {
  inv_keys :
    Forall (fun t => (t_ID t <= tasks_seq (db (world sys)))%N)
           (download_tasks (db (world sys)));
  inv_ids :
    Forall (fun id => (id <= tasks_seq (db (world sys)))%N)
           (spawned sys ++ running sys);
  inv_nodup : NoDup (spawned sys ++ running sys);
  inv_spawned :
    forall t, t ∈ download_tasks (db (world sys)) -> t_ID t ∈ spawned sys ->
      t_Status t = "pending" /\ untouched t;
  inv_running :
    forall t, t ∈ download_tasks (db (world sys)) -> t_ID t ∈ running sys ->
      t_Status t = "processing" /\ untouched t
}.

(** How one step may change a row: not at all, or to the next status. *)
Definition row_step (t t' : DownloadTask) : Prop :=
  t_ID t' = t_ID t
  /\ (t_Status t' = t_Status t \/ transition (t_Status t) (t_Status t')).


(** ** Retrieving a container ([DownloadZipFile]) *)

(** [strings.Split(s, sep)] for a separator of one byte: the pieces between
    the separators, one more than there are separators. *)
Fixpoint strings_Split (sep : ascii) (text : string) : list string :=
  match text with
  | EmptyString => [EmptyString]
  | String c rest =>
      if bool_decide (c = sep) then EmptyString :: strings_Split sep rest
      else match strings_Split sep rest with
           | piece :: pieces => String c piece :: pieces
           | [] => [String c EmptyString]
           end
  end.

Definition digit_value (c : ascii) : option N :=
  let n := N_of_ascii c in
  if ((48 <=? n) && (n <=? 57))%N then Some (n - 48)%N else None.

Fixpoint parse_digits (text : string) (acc : N) : option N :=
  match text with
  | EmptyString => Some acc
  | String c rest =>
      match digit_value c with
      | Some d => parse_digits rest (10 * acc + d)%N
      | None => None
      end
  end.

(** [strconv.ParseUint(s, 10, 32)], [None] for either of its errors: the
    text is empty or has a byte that is not a decimal digit, or the number
    does not fit 32 bits. *)
Definition strconv_ParseUint32 (text : string) : option N :=
  match text with
  | EmptyString => None
  | _ =>
      match parse_digits text 0 with
      | Some n => if (n <? 2 ^ 32)%N then Some n else None
      | None => None
      end
  end.

Inductive zip_error :=
| ErrBadFileName
| ErrNoPermission
| ErrZipMissing.

Definition zip_error_message (e : zip_error) : string :=
  match e with
  | ErrBadFileName => "无效的文件名格式"
  | ErrNoPermission => "无权限下载此文件"
  | ErrZipMissing => "文件不存在或已过期"
  end.

(** [parts[len(parts)-2]]. *)
Definition last_but_one (parts : list string) : option string :=
  last (removelast parts).

(** [DownloadZipFile]: the owner is read from the file name, and the file
    must exist; the task table is not consulted. *)
Definition DownloadZipFile (s : DownloadService) (userID : N)
    (fileName : string) (w : World) : result zip_error string :=
  let parts := strings_Split "_" fileName in
  if (length parts <? 3)%nat then Err ErrBadFileName
  else
    match last_but_one parts ≫= strconv_ParseUint32 with
    | None => Err ErrNoPermission
    | Some fileUserID =>
        if negb (bool_decide (fileUserID = userID)) then Err ErrNoPermission
        else
          let filePath := Fs.filepath_Join (downloadPath s) fileName in
          match disk w !! filePath with
          | None => Err ErrZipMissing
          | Some _ => Ok filePath
          end
    end.


(** The digits of [%x]. *)
Definition lower_hex (c : ascii) : Prop :=
  c ∈ String.list_ascii_of_string "0123456789abcdef".


(** A task is stranded when no builder exists for it, no row under its key
    is [completed], and a query for it finds [task]. *)
Definition stranded (taskID : N) (task : DownloadTask) (sys : System) : Prop :=
  (taskID <= tasks_seq (db (world sys)))%N
  /\ (taskID ∉ spawned sys ++ running sys)
  /\ (forall t, t ∈ download_tasks (db (world sys)) -> t_ID t = taskID ->
        t_Status t <> "completed")
  /\ find_task taskID (db (world sys)) = Some task.

(** ** Concrete inputs

    Stand-ins for the two codecs, enough to run the definitions: the JSON
    of a list of numbers as [json.Marshal] prints it, and a container that
    lays the entries end to end. *)
Module Fixture.

Definition bytes_of (text : string) : list byte :=
  String.list_byte_of_string text.

Definition marshal (ids : list N) : string :=
  "[" +:+ String.concat "," (map pretty ids) +:+ "]".

Definition digit_of (c : ascii) : option N :=
  let n := N_of_ascii c in
  if ((48 <=? n) && (n <=? 57))%N then Some (n - 48)%N else None.

Fixpoint parse_items (text : string) (cur : option N) (acc : list N)
  : string + list N :=
  match text with
  | EmptyString => inl "unexpected end of JSON input"
  | String c rest =>
      match digit_of c, cur with
      | Some d, Some n => parse_items rest (Some (10 * n + d)%N) acc
      | Some d, None => parse_items rest (Some d) acc
      | None, Some n =>
          if bool_decide (c = ","%char) then parse_items rest None (acc ++ [n])
          else if bool_decide (c = "]"%char) && bool_decide (rest = EmptyString)
          then inr (acc ++ [n])
          else inl "invalid character"
      | None, None =>
          if bool_decide (c = "]"%char) && bool_decide (rest = EmptyString)
             && bool_decide (acc = [])
          then inr []
          else inl "invalid character"
      end
  end.

Definition unmarshal (text : string) : string + list N :=
  match text with
  | String "["%char rest => parse_items rest None []
  | _ => inl "invalid character"
  end.

Definition codecs : Codecs :=
  {| json_Marshal := marshal;
     json_Unmarshal := unmarshal;
     zip_bytes := fun entries =>
       flat_map (fun e => bytes_of e.1 ++ e.2) entries;
     zip_flushed := fun entries =>
       Z.of_nat (length (flat_map (fun e => bytes_of e.1 ++ e.2) entries)) |}.

Definition cfg : Config := {| UploadPath := "uploads"; TempPath := "temp" |}.

Definition svc : DownloadService :=
  {| uploadPath := "uploads"; downloadPath := "downloads";
     baseURL := "http://localhost:8080" |}.

Definition empty_db : DB :=
  {| files := []; files_seq := 0; download_tasks := []; tasks_seq := 0;
     workflow_members := [] |}.

Definition empty_world : World :=
  {| uploadSessions := ∅; disk := ∅; db := empty_db |}.

(** An upload of the eleven bytes [hello world] in chunks of six, by user 7
    at time 100. *)
Definition hello_req : InitUploadRequest :=
  {| req_FileName := "a.txt"; req_FileSize := 11;
     req_MD5Hash := "5eb63bbbe01eeed093cb22bb8f5acdc3"; req_ChunkSize := 6;
     req_FolderID := 0; req_WorkflowID := 0; req_TaskID := 0;
     req_Description := ""; req_IsPrivate := false |}.

Definition hello_id : string := "7_5eb63bbbe01eeed093cb22bb8f5acdc3_100".

Definition hello_init : World := (InitUpload cfg 100 hello_req 7 empty_world).2.

Definition hello_chunk0 : World :=
  (UploadChunk hello_id 0 (bytes_of "hello ")
     "f814893777bcc2295fff05f00e508da6" hello_init).2.

Definition hello_chunks : World :=
  (UploadChunk hello_id 1 (bytes_of "world")
     "7d793037a0760186574b0282f2f435e7" hello_chunk0).2.




(** Two stored files of user 7, of which only the first is on disk, and a
    request for both. *)
Definition stored_file (id : N) (name : string) : File :=
  {| f_ID := id; f_FileName := name; f_FilePath := name; f_FileSize := 5;
     f_MD5Hash := ""; f_MimeType := "text/plain"; f_OwnerID := 7;
     f_FolderID := 0; f_WorkflowID := 0; f_TaskID := 0; f_IsPrivate := true;
     f_IsDeleted := false; f_DeletedAt := None; f_Description := "";
     f_CreatedAt := 0; f_UpdatedAt := 0 |}.

Definition archive_world : World :=
  {| uploadSessions := ∅;
     disk := {[ "uploads/a.txt" := bytes_of "hello" ]};
     db := {| files := [stored_file 1 "a.txt"; stored_file 2 "b.txt"];
              files_seq := 2; download_tasks := []; tasks_seq := 0;
              workflow_members := [] |} |}.

Definition archive_req : BatchDownloadRequest :=
  {| bd_FileIDs := [1; 2]%N; bd_TaskName := "docs" |}.

(** A request of user 7 for the stored file that is on disk. *)
Definition one_file_req : BatchDownloadRequest :=
  {| bd_FileIDs := [1]%N; bd_TaskName := "docs" |}.

Definition requested_world : World :=
  (CreateBatchDownloadTask (H := Fixture.codecs) 200 7 one_file_req
     Fixture.archive_world).1.2.

Definition built_world : World :=
  processDownloadTask (H := Fixture.codecs) Fixture.svc 201 1 requested_world.



End Fixture.

(** * Properties *)

(** The test vectors of RFC 1321, section A.5, and one of two blocks. *)
Example md5_sum_empty : MD5.hex (MD5.Sum []) = "d41d8cd98f00b204e9800998ecf8427e".
Proof. vm_compute. reflexivity. Qed.

Example md5_sum_a :
  MD5.hex (MD5.Sum ["a"%byte]) = "0cc175b9c0f1b6a831c399e269772661".
Proof. vm_compute. reflexivity. Qed.

Example md5_sum_abc :
  MD5.hex (MD5.Sum ["a"; "b"; "c"]%byte) = "900150983cd24fb0d6963f7d28e17f72".
Proof. vm_compute. reflexivity. Qed.

Example md5_sum_two_blocks :
  MD5.hex (MD5.Sum (replicate 64 "y"%byte)) = "b0c4864f4e28d2d76929c38d87db7ed5".
Proof. vm_compute. reflexivity. Qed.

Example marshal_unmarshal :
  Fixture.unmarshal (Fixture.marshal [3; 14; 15]%N) = inr [3; 14; 15]%N.
Proof. vm_compute. reflexivity. Qed.

Example mime_of_upper_case : getMimeType "report.v2.PDF" = "application/pdf".
Proof. vm_compute. reflexivity. Qed.

Example total_chunks_rounds_up :
  (InitUpload Fixture.cfg 100 Fixture.hello_req 7 Fixture.empty_world).1
  = Ok {| resp_UploadID := Fixture.hello_id; resp_TotalChunks := 2;
          resp_ChunkSize := 6; resp_ExistingFile := None;
          resp_IsSecUpload := false |}.
Proof. vm_compute. reflexivity. Qed.

(** ** The upload session *)

Lemma elem_of_received (s : UploadSession) (i : Z) :
  i ∈ received_indices s <-> us_UploadedChunks s !! i = Some true.
Proof.
  unfold received_indices. rewrite elem_of_dom. split.
  - intros [b Hb]. apply map_lookup_filter_Some in Hb as [Hb Ht].
    simpl in Ht. by subst.
  - intros Hi. exists true. by apply map_lookup_filter_Some.
Qed.

Lemma uploaded_received (s : UploadSession) (i : Z) :
  uploaded s i = true <-> i ∈ received_indices s.
Proof.
  rewrite elem_of_received. unfold uploaded.
  destruct (us_UploadedChunks s !! i) as [[]|]; simpl; split; congruence.
Qed.

Lemma received_mark_uploaded (s : UploadSession) (i : Z) :
  received_indices (mark_uploaded i s) = {[i]} ∪ received_indices s.
Proof.
  apply set_eq. intros j.
  rewrite elem_of_union, elem_of_singleton, !elem_of_received. simpl.
  destruct (decide (i = j)) as [->|Hne].
  - rewrite lookup_insert_eq. split; [by left | done].
  - rewrite lookup_insert_ne by done. split; [by right | by intros [?|?]].
Qed.

Lemma mark_uploaded_again (s : UploadSession) (i : Z) :
  i ∈ received_indices s -> mark_uploaded i s = s.
Proof.
  rewrite elem_of_received. intros Hi. destruct s; unfold mark_uploaded; simpl in *.
  f_equal. by apply insert_id.
Qed.

Lemma write_same_bytes (fs : gmap string (list byte)) path data :
  fs !! path = Some data ->
  Fs.file_Write path data (Fs.os_Create path fs) = fs.
Proof.
  intros Hp. unfold Fs.file_Write, Fs.os_Create.
  rewrite lookup_insert_eq, insert_insert_eq. simpl. by apply insert_id.
Qed.

(** What [UploadChunk] does when the session exists and the checksum is the
    hash of the bytes. *)
Lemma UploadChunk_accepted uploadID i data sum w session :
  uploadSessions w !! uploadID = Some session ->
  MD5.hex (MD5.Sum data) = sum ->
  UploadChunk uploadID i data sum w
  = (None,
     with_sessions
       (<[uploadID := mark_uploaded i session]> (uploadSessions w))
       (with_disk (Fs.file_Write (chunk_path (us_TempDir session) i) data
                     (Fs.os_Create (chunk_path (us_TempDir session) i) (disk w)))
                  w)).
Proof.
  intros Hs Hsum. unfold UploadChunk. rewrite Hs.
  by rewrite bool_decide_eq_true_2.
Qed.




(** A chunk call that carries a marked index, the bytes its staged file
    holds and their checksum changes nothing. *)
Lemma UploadChunk_repeat uploadID i data w session :
  uploadSessions w !! uploadID = Some session ->
  i ∈ received_indices session ->
  disk w !! chunk_path (us_TempDir session) i = Some data ->
  UploadChunk uploadID i data (MD5.hex (MD5.Sum data)) w = (None, w).
Proof.
  intros Hs Hi Hdata.
  rewrite (UploadChunk_accepted _ _ _ _ _ _ Hs eq_refl).
  rewrite (mark_uploaded_again _ _ Hi), (write_same_bytes _ _ _ Hdata).
  rewrite (insert_id _ _ _ Hs). by destruct w.
Qed.

(** A first upload of a chunk establishes what the repeated upload needs. *)
Lemma upload_then_reupload
    (uploadID : string) (i : Z) (data : list byte) (sum : string)
    (w w' : World) :
  UploadChunk uploadID i data sum w = (None, w') ->
  UploadChunk uploadID i data sum w' = (None, w').
Proof.
  unfold UploadChunk at 1.
  destruct (uploadSessions w !! uploadID) as [session|] eqn:Hs; [|done].
  case_bool_decide as Hsum; simpl; [|done].
  intros [= <-]. subst sum.
  eapply UploadChunk_repeat; simpl.
  - apply lookup_insert_eq.
  - rewrite received_mark_uploaded. set_solver.
  - unfold Fs.file_Write, Fs.os_Create.
    by rewrite lookup_insert_eq, lookup_insert_eq.
Qed.

(** C6. Uploading again an index that is marked, with the bytes its staged
    chunk file already holds and their checksum, returns no error and the
    state after the call is the state before it: the received indices, the
    rest of the session, the other sessions, the disk and the database. *)
Theorem reupload_is_idempotent
    (uploadID : string) (i : Z) (data : list byte) (w : World)
    (session : UploadSession) :
  uploadSessions w !! uploadID = Some session ->
  i ∈ received_indices session ->
  disk w !! chunk_path (us_TempDir session) i = Some data ->
  UploadChunk uploadID i data (MD5.hex (MD5.Sum data)) w = (None, w)
  /\ recorded uploadID
       (UploadChunk uploadID i data (MD5.hex (MD5.Sum data)) w).2
     = received_indices session.
Proof.
  intros Hs Hi Hdata.
  rewrite (UploadChunk_repeat _ _ _ _ _ Hs Hi Hdata). split; [done|].
  unfold recorded. cbn [snd]. by rewrite Hs.
Qed.

Lemma reupload_is_idempotent_witness :
  UploadChunk Fixture.hello_id 0 (Fixture.bytes_of "hello ")
    (MD5.hex (MD5.Sum (Fixture.bytes_of "hello "))) Fixture.hello_chunks
  = (None, Fixture.hello_chunks).
Proof.
  destruct (uploadSessions Fixture.hello_chunks !! Fixture.hello_id)
    as [session|] eqn:Hs; [|vm_compute in Hs; discriminate].
  apply (reupload_is_idempotent _ _ _ _ session Hs).
  - apply elem_of_received. vm_compute in Hs. injection Hs as <-.
    vm_compute. reflexivity.
  - vm_compute in Hs. injection Hs as <-. vm_compute. reflexivity.
Defined.













(** ** Finalize *)










(** The merge loop writes to the final path only. *)
Lemma merge_chunks_frame tempDir finalPath idxs
    (fs fs' : gmap string (list byte)) r path :
  merge_chunks tempDir finalPath idxs fs = (r, fs') ->
  path <> finalPath -> fs' !! path = fs !! path.
Proof.
  revert fs. induction idxs as [|i idxs IH]; intros fs; simpl.
  - by intros [= _ <-].
  - unfold Fs.os_Open. destruct (fs !! chunk_path tempDir i) as [data|].
    + intros Hm Hne. rewrite (IH _ Hm Hne). unfold Fs.file_Write.
      by rewrite lookup_insert_ne.
    + by intros [= _ <-].
Qed.






(** The final path is made of the declared fingerprint and the file name,
    so a failed finalize can also replace a file stored earlier. User 7 has
    stored [hello world]; user 9 declares the same fingerprint and name with
    another size, which is no instant upload, sends one chunk [x] and
    finalizes: the call fails, and the stored file of user 7 now holds [x]. *)
Example failed_finalize_replaces_stored_file :
  let stored :=
    (CompleteUpload Fixture.cfg 101 Fixture.hello_id Fixture.hello_chunks).2 in
  let req :=
    {| req_FileName := "a.txt"; req_FileSize := 12;
       req_MD5Hash := "5eb63bbbe01eeed093cb22bb8f5acdc3"; req_ChunkSize := 12;
       req_FolderID := 0; req_WorkflowID := 0; req_TaskID := 0;
       req_Description := ""; req_IsPrivate := false |} in
  let id := "9_5eb63bbbe01eeed093cb22bb8f5acdc3_102"%string in
  let staged :=
    (UploadChunk id 0 (Fixture.bytes_of "x") "9dd4e461268c8034f5c8564e155c67a6"
       (InitUpload Fixture.cfg 102 req 9 stored).2).2 in
  disk stored !! "uploads/5eb63bbbe01eeed093cb22bb8f5acdc3_a.txt"
  = Some (Fixture.bytes_of "hello world")
  /\ (CompleteUpload Fixture.cfg 103 id staged).1 = Err ErrFileMD5
  /\ disk (CompleteUpload Fixture.cfg 103 id staged).2
       !! "uploads/5eb63bbbe01eeed093cb22bb8f5acdc3_a.txt"
     = Some (Fixture.bytes_of "x")
  /\ f_FilePath <$> files (db (CompleteUpload Fixture.cfg 103 id staged).2)
     = ["uploads/5eb63bbbe01eeed093cb22bb8f5acdc3_a.txt"].
Proof. vm_compute. auto. Qed.

(** ** Instant upload *)

Lemma find_app_first {A} (f : A -> bool) (l1 l2 : list A) :
  List.find f (l1 ++ l2)
  = match List.find f l1 with
    | Some x => Some x
    | None => List.find f l2
    end.
Proof.
  induction l1 as [|x l1 IH]; simpl; [done|]. by destruct (f x).
Qed.







(** ** The expiry sweep *)


(** A path keeps its file through the removals unless it is the recorded
    container path of one of the tasks. *)
Lemma remove_zips_lookup (l : list DownloadTask) (fs : gmap string (list byte))
    (path : string) :
  foldl remove_zip fs l !! path = fs !! path
  \/ (foldl remove_zip fs l !! path = None
      /\ exists t, t ∈ l /\ t_ZipFilePath t = path /\ path <> "").
Proof.
  revert fs. induction l as [|t l IH]; intros fs; cbn [foldl]; [by left|].
  destruct (IH (remove_zip fs t)) as [Heq | (Hnone & t' & Hin & Hp & Hne)].
  - rewrite Heq. unfold remove_zip, Fs.os_Remove. case_bool_decide as Hz.
    + destruct (decide (t_ZipFilePath t = path)) as [<-|Hother].
      * right. rewrite lookup_delete_eq. split; [done|].
        exists t. split; [left|done].
      * left. by rewrite lookup_delete_ne.
    + by left.
  - right. split; [done|]. exists t'. split; [by right|done].
Qed.



(** ** The life cycle of an archive task *)

Lemma elem_of_without (taskID x : N) (l : list N) :
  x ∈ without taskID l <-> x <> taskID /\ x ∈ l.
Proof. unfold without. by rewrite list_elem_of_filter. Qed.

Lemma boot_inv (w : World) : keys_drawn (db w) = true -> inv (boot w).
Proof.
  intros Hkeys. unfold keys_drawn in Hkeys. rewrite forallb_forall in Hkeys.
  split; simpl.
  - apply Forall_forall. intros t Ht.
    apply N.leb_le, Hkeys. by apply list_elem_of_In.
  - constructor.
  - constructor.
  - intros t _ Hin. by apply elem_of_nil in Hin.
  - intros t _ Hin. by apply elem_of_nil in Hin.
Qed.

Lemma update_tasks_lookup cond u (d : DB) k :
  download_tasks (update_tasks cond u d) !! k
  = (fun t => if cond t && visible t then u t else t) <$> download_tasks d !! k.
Proof. simpl. apply list_lookup_fmap. Qed.


Section Lifecycle.
Context `{Codecs}.
Variable s : DownloadService.

(** Whatever the outcome, the builder's last statement rewrites the visible
    rows of its task, to [failed] or to [completed]. *)
Lemma build_archive_tasks now taskID w :
  exists u,
    (forall t, t_ID (u t) = t_ID t
               /\ (t_Status (u t) = "failed" \/ t_Status (u t) = "completed"))
    /\ db (build_archive s now taskID w)
       = update_tasks (has_id taskID) u (db w).
Proof.
  unfold build_archive.
  destruct (find_task taskID (db w)) as [task|].
  - destruct (json_Unmarshal (t_FileIDs task)) as [err|fileIDs].
    + eexists (set_failed now _). split; [intros t; simpl; auto | done].
    + destruct (add_files _ _ _ _) as [entries [missing|]].
      * eexists (set_failed now _). split; [intros t; simpl; auto | done].
      * eexists (set_completed now _ _ _ _).
        split; [intros t; simpl; auto | done].
  - eexists (set_failed now _). split; [intros t; simpl; auto | done].
Qed.

(** A request either creates nothing, or appends one pending row under the
    next key and spawns its builder. *)
Lemma CreateBatchDownloadTask_effect now userID req w :
  (exists r, CreateBatchDownloadTask now userID req w = (r, w, None))
  \/ exists r row,
       CreateBatchDownloadTask now userID req w
       = (r, with_db {| files := files (db w); files_seq := files_seq (db w);
                        download_tasks := download_tasks (db w) ++ [row];
                        tasks_seq := (tasks_seq (db w) + 1)%N;
                        workflow_members := workflow_members (db w) |} w,
          Some (tasks_seq (db w) + 1)%N)
       /\ t_ID row = (tasks_seq (db w) + 1)%N
       /\ t_Status row = "pending" /\ untouched row.
Proof.
  unfold CreateBatchDownloadTask.
  destruct (validateFilePermissions _ _ _) as [|x l]; [eauto|].
  right. eexists _, _. split; [reflexivity|]. by repeat split.
Qed.

Lemma step_inv ev sys sys' : inv sys -> step s ev sys = Some sys' -> inv sys'.
Proof.
  intros [Hkeys Hids Hnodup Hsp Hrun].
  destruct ev as [now userID req | now taskID | now taskID | now
                 | sessions fs fls fseq members]; simpl.
  - (* a request *)
    destruct (CreateBatchDownloadTask_effect now userID req (world sys))
      as [[r ->] | (r & row & -> & Hid & Hst & Hun)]; intros [= <-].
    + split; simpl; rewrite ?app_nil_r; done.
    + rewrite Forall_forall in Hkeys. rewrite Forall_forall in Hids.
      assert (Hfresh : forall x, x ∈ spawned sys ++ running sys ->
                                 x <> (tasks_seq (db (world sys)) + 1)%N).
      { intros x Hx ->. apply Hids in Hx. lia. }
      assert (Hold : forall t, t ∈ download_tasks (db (world sys)) ->
                               t_ID t <> (tasks_seq (db (world sys)) + 1)%N).
      { intros t Ht Heq. apply Hkeys in Ht. lia. }
      split; simpl.
      * apply Forall_app. split.
        -- apply Forall_forall. intros t Ht. apply Hkeys in Ht. lia.
        -- apply Forall_singleton. lia.
      * apply Forall_forall. intros x Hx.
        assert (Hcases : x ∈ spawned sys ++ running sys
                         \/ x = (tasks_seq (db (world sys)) + 1)%N).
        { rewrite !elem_of_app, list_elem_of_singleton in Hx.
          rewrite elem_of_app. tauto. }
        destruct Hcases as [Hx'| ->]; [apply Hids in Hx'|]; lia.
      * apply NoDup_app in Hnodup as (Hn1 & Hdisj & Hn2).
        apply NoDup_app. split; [|split; [|done]].
        -- apply NoDup_app. split; [done|]. split; [|apply NoDup_singleton].
           intros x Hx. rewrite list_elem_of_singleton. intros ->.
           apply (Hfresh (tasks_seq (db (world sys)) + 1)%N); [|done].
           apply elem_of_app. by left.
        -- intros x Hx Hx'. apply elem_of_app in Hx as [Hx|Hx].
           ++ by eapply Hdisj.
           ++ apply list_elem_of_singleton in Hx as ->.
              apply (Hfresh (tasks_seq (db (world sys)) + 1)%N); [|done].
              apply elem_of_app. by right.
      * intros t Ht Hin. apply elem_of_app in Ht as [Ht|Ht].
        -- apply Hsp; [done|]. apply elem_of_app in Hin as [Hin|Hin]; [done|].
           apply list_elem_of_singleton in Hin. by apply Hold in Ht.
        -- apply list_elem_of_singleton in Ht as ->. done.
      * intros t Ht Hin. apply elem_of_app in Ht as [Ht|Ht].
        -- by apply Hrun.
        -- apply list_elem_of_singleton in Ht as ->. exfalso.
           apply (Hfresh (tasks_seq (db (world sys)) + 1)%N); [|done].
           apply elem_of_app. right. by rewrite <- Hid.
  - (* the first statement of a builder *)
    case_bool_decide as Hin; [|done]. intros [= <-].
    apply NoDup_app in Hnodup as (Hn1 & Hdisj & Hn2).
    split; simpl.
    + rewrite Forall_fmap. eapply Forall_impl; [exact Hkeys|].
      intros t Ht. simpl. by destruct (has_id taskID t && visible t).
    + rewrite Forall_forall in Hids. apply Forall_forall. intros x Hx.
      apply Hids. rewrite !elem_of_app in Hx. rewrite elem_of_app.
      destruct Hx as [Hx | [Hx | Hx]].
      * apply elem_of_without in Hx as [_ ?]. by left.
      * by right.
      * apply list_elem_of_singleton in Hx as ->. by left.
    + rewrite app_assoc. apply NoDup_app. split; [|split].
      * apply NoDup_app. split; [by apply NoDup_filter|]. split; [|done].
        intros x Hx. apply elem_of_without in Hx as [_ Hx]. by apply Hdisj.
      * intros x Hx. rewrite list_elem_of_singleton. intros ->.
        apply elem_of_app in Hx as [Hx|Hx].
        -- by apply elem_of_without in Hx as [? _].
        -- by eapply Hdisj.
      * apply NoDup_singleton.
    + intros t' Ht' Hid. apply list_elem_of_fmap in Ht' as (t & -> & Ht).
      unfold has_id in *.
      case_bool_decide as Heq; simpl in *.
      * destruct (visible t); simpl in Hid;
          apply elem_of_without in Hid as [Hne _]; done.
      * apply elem_of_without in Hid as [_ Hid]. by apply Hsp.
    + intros t' Ht' Hid. apply list_elem_of_fmap in Ht' as (t & -> & Ht).
      unfold has_id in *.
      case_bool_decide as Heq; simpl in *.
      * assert (Hold : t_Status t = "pending" /\ untouched t).
        { apply Hsp; [done|]. by rewrite Heq. }
        destruct Hold as [_ Hun]. unfold visible.
        rewrite bool_decide_eq_true_2 by apply Hun. done.
      * apply elem_of_app in Hid as [Hid|Hid]; [by apply Hrun|].
        apply list_elem_of_singleton in Hid. done.
  - (* the last statement of a builder *)
    case_bool_decide as Hin; [|done]. intros [= <-].
    destruct (build_archive_tasks now taskID (world sys)) as (u & Hu & Hdb).
    apply NoDup_app in Hnodup as (Hn1 & Hdisj & Hn2).
    split; cbn [world spawned running]; rewrite ?Hdb; simpl.
    + rewrite Forall_fmap. eapply Forall_impl; [exact Hkeys|].
      intros t Ht. simpl. destruct (has_id taskID t && visible t); [|done].
      by destruct (Hu t) as [-> _].
    + rewrite Forall_forall in Hids. apply Forall_forall. intros x Hx.
      apply Hids. rewrite elem_of_app in *. destruct Hx as [Hx|Hx]; [by left|].
      apply elem_of_without in Hx as [_ ?]. by right.
    + apply NoDup_app. split; [done|]. split; [|by apply NoDup_filter].
      intros x Hx Hx'. apply elem_of_without in Hx' as [_ Hx'].
      by eapply Hdisj.
    + intros t' Ht' Hid. apply list_elem_of_fmap in Ht' as (t & -> & Ht).
      unfold has_id in *.
      case_bool_decide as Heq; simpl in *.
      * exfalso. destruct (visible t); [destruct (Hu t) as [Hidu _];
          rewrite Hidu in Hid|]; rewrite Heq in Hid; by eapply Hdisj.
      * by apply Hsp.
    + intros t' Ht' Hid. apply list_elem_of_fmap in Ht' as (t & -> & Ht).
      unfold has_id in *.
      case_bool_decide as Heq; simpl in *.
      * exfalso. destruct (visible t); [destruct (Hu t) as [Hidu _];
          rewrite Hidu in Hid|]; rewrite Heq in Hid;
          by apply elem_of_without in Hid as [? _].
      * apply elem_of_without in Hid as [_ Hid]. by apply Hrun.
  - (* the sweep *)
    intros [= <-].
    assert (Hkeep : forall t, t ∈ download_tasks (db (world sys)) ->
              t_ID t ∈ spawned sys ++ running sys ->
              (if expired now t && visible t then set_deleted now t else t) = t).
    { intros t Ht Hid.
      assert (Hst : t_Status t <> "completed").
      { apply elem_of_app in Hid as [Hid|Hid].
        - destruct (Hsp t Ht Hid) as [-> _]. done.
        - destruct (Hrun t Ht Hid) as [-> _]. done. }
      unfold expired. by rewrite (bool_decide_eq_false_2 _ Hst), andb_false_r. }
    split; simpl; try done.
    + rewrite Forall_fmap. eapply Forall_impl; [exact Hkeys|].
      intros t Ht. simpl. by destruct (expired now t && visible t).
    + intros t' Ht' Hid. apply list_elem_of_fmap in Ht' as (t & -> & Ht).
      assert (Hid' : t_ID t ∈ spawned sys)
        by (by destruct (expired now t && visible t)).
      rewrite Hkeep; [by apply Hsp|done|]. apply elem_of_app. by left.
    + intros t' Ht' Hid. apply list_elem_of_fmap in Ht' as (t & -> & Ht).
      assert (Hid' : t_ID t ∈ running sys)
        by (by destruct (expired now t && visible t)).
      rewrite Hkeep; [by apply Hrun|done|]. apply elem_of_app. by right.
  - (* anything else *)
    intros [= <-]. split; simpl; done.
Qed.

Lemma run_inv evs sys sys' : inv sys -> run s evs sys = Some sys' -> inv sys'.
Proof.
  revert sys. induction evs as [|ev evs IH]; intros sys Hinv; simpl.
  - by intros [= <-].
  - destruct (step s ev sys) as [sys1|] eqn:Hstep; [|done].
    apply IH. by eapply step_inv.
Qed.

End Lifecycle.

Lemma find_task_keep taskID (f : DownloadTask -> DownloadTask) (d d' : DB) :
  download_tasks d' = f <$> download_tasks d ->
  (forall t, t ∈ download_tasks d ->
     t_ID (f t) = t_ID t /\ (t_ID t = taskID -> f t = t)) ->
  find_task taskID d' = find_task taskID d.
Proof.
  unfold find_task. intros -> Hf.
  induction (download_tasks d) as [|t l IH]; [done|].
  rewrite fmap_cons. simpl.
  destruct (Hf t) as [Hid Hsame]; [left|].
  rewrite IH by (intros t' Ht'; apply Hf; by right).
  destruct (decide (t_ID t = taskID)) as [Heq|Hne].
  - by rewrite (Hsame Heq).
  - by rewrite !bool_decide_eq_false_2 by congruence.
Qed.

Section Archive.
Context `{Codecs}.
Variable s : DownloadService.

(** What a step does to the rows, under the invariant. *)
Lemma step_rows ev sys sys' :
  inv sys -> step s ev sys = Some sys' ->
  (forall k t, download_tasks (db (world sys)) !! k = Some t ->
     exists t', download_tasks (db (world sys')) !! k = Some t' /\ row_step t t')
  /\ (forall k t', download_tasks (db (world sys')) !! k = Some t' ->
        download_tasks (db (world sys)) !! k = None -> t_Status t' = "pending").
Proof.
  intros [Hkeys Hids Hnodup Hsp Hrun].
  assert (Hsame : forall f : DownloadTask -> DownloadTask,
            (forall t, t ∈ download_tasks (db (world sys)) -> row_step t (f t)) ->
            (forall k t, download_tasks (db (world sys)) !! k = Some t ->
               exists t', (f <$> download_tasks (db (world sys))) !! k = Some t'
                          /\ row_step t t')
            /\ (forall k t', (f <$> download_tasks (db (world sys))) !! k = Some t' ->
                  download_tasks (db (world sys)) !! k = None ->
                  t_Status t' = "pending")).
  { intros f Hf. split.
    - intros k t Hk. exists (f t). rewrite list_lookup_fmap, Hk.
      split; [done|]. apply Hf. by eapply list_elem_of_lookup_2.
    - intros k t'. rewrite list_lookup_fmap. intros Hk Hnone.
      by rewrite Hnone in Hk. }
  destruct ev as [now userID req | now taskID | now taskID | now
                 | sessions fs fls fseq members]; simpl.
  - destruct (CreateBatchDownloadTask_effect now userID req (world sys))
      as [[r ->] | (r & row & -> & Hid & Hst & Hun)]; intros [= <-]; simpl.
    + split; [|congruence]. intros k t Hk. exists t. unfold row_step. auto.
    + split.
      * intros k t Hk. exists t. split; [|unfold row_step; auto].
        rewrite lookup_app_l; [done|]. by eapply lookup_lt_Some.
      * intros k t' Hk' Hk. apply lookup_ge_None in Hk.
        rewrite lookup_app_r in Hk' by done.
        apply list_lookup_singleton_Some in Hk' as [_ <-]. done.
  - case_bool_decide as Hin; [|done]. intros [= <-]. simpl.
    apply Hsame. intros t Ht. unfold has_id.
    case_bool_decide as Heq; simpl; [|unfold row_step; auto].
    destruct (visible t); [|unfold row_step; auto].
    split; [done|]. right. simpl.
    destruct (Hsp t Ht) as [-> _]; [by rewrite Heq|]. constructor.
  - case_bool_decide as Hin; [|done]. intros [= <-].
    destruct (build_archive_tasks s now taskID (world sys)) as (u & Hu & Hdb).
    cbn [world]. rewrite Hdb. simpl.
    apply Hsame. intros t Ht. unfold has_id.
    case_bool_decide as Heq; simpl; [|unfold row_step; auto].
    destruct (visible t); [|unfold row_step; auto].
    destruct (Hu t) as [Hidu Hstu]. split; [done|]. right.
    destruct (Hrun t Ht) as [-> _]; [by rewrite Heq|].
    destruct Hstu as [-> | ->]; constructor.
  - intros [= <-]. simpl. apply Hsame. intros t Ht.
    destruct (expired now t && visible t); unfold row_step; auto.
  - intros [= <-]. simpl. split; [|congruence].
    intros k t Hk. exists t. unfold row_step. auto.
Qed.

(** C8. In every state the process reaches from its start, whatever happens
    next changes the status of a task only from [pending] to [processing]
    or from [processing] to [completed] or [failed]: every row is still
    there afterwards, under its key, with its status unchanged or moved by
    one of these three transitions; a row whose status is [completed] or
    [failed] keeps its status; and a new row is [pending]. *)
Theorem status_only_moves_forward
    (w0 : World) (evs : list event) (sys : System) (ev : event)
    (sys' : System) :
  keys_drawn (db w0) = true ->
  run s evs (boot w0) = Some sys ->
  step s ev sys = Some sys' ->
  (forall k t, download_tasks (db (world sys)) !! k = Some t ->
     exists t',
       download_tasks (db (world sys')) !! k = Some t'
       /\ t_ID t' = t_ID t
       /\ (t_Status t' = t_Status t \/ transition (t_Status t) (t_Status t'))
       /\ (t_Status t = "completed" \/ t_Status t = "failed" ->
           t_Status t' = t_Status t))
  /\ (forall k t', download_tasks (db (world sys')) !! k = Some t' ->
        download_tasks (db (world sys)) !! k = None -> t_Status t' = "pending").
Proof.
  intros Hkeys Hrun Hstep.
  assert (Hinv : inv sys) by (eapply run_inv; [by apply boot_inv|done]).
  destruct (step_rows ev sys sys' Hinv Hstep) as [Hrows Hnew].
  split; [|done]. intros k t Hk.
  destruct (Hrows k t Hk) as (t' & Hk' & Hid & Hst).
  exists t'. split; [done|]. split; [done|]. split; [done|].
  intros Hterminal. destruct Hst as [Hst|Hst]; [done|].
  destruct Hterminal as [Ht|Ht]; rewrite Ht in Hst; inversion Hst.
Qed.

End Archive.

(** A request for two files, the builder's first statement, then its last:
    the task goes from [processing] to [failed]. *)
Lemma status_only_moves_forward_witness :
  exists sys sys' t t',
    run (H := Fixture.codecs) Fixture.svc
        [EvCreate 200 7 Fixture.archive_req; EvBegin 201 1]
        (boot Fixture.archive_world) = Some sys
    /\ step (H := Fixture.codecs) Fixture.svc (EvFinish 202 1) sys = Some sys'
    /\ download_tasks (db (world sys)) !! 0%nat = Some t
    /\ download_tasks (db (world sys')) !! 0%nat = Some t'
    /\ t_Status t = "processing" /\ t_Status t' = "failed"
    /\ transition (t_Status t) (t_Status t').
Proof.
  destruct (run (H := Fixture.codecs) Fixture.svc
              [EvCreate 200 7 Fixture.archive_req; EvBegin 201 1]
              (boot Fixture.archive_world)) as [sys|] eqn:Hrun;
    [|vm_compute in Hrun; discriminate].
  destruct (step (H := Fixture.codecs) Fixture.svc (EvFinish 202 1) sys)
    as [sys'|] eqn:Hstep.
  2: { vm_compute in Hrun. injection Hrun as <-.
       vm_compute in Hstep. discriminate. }
  destruct (status_only_moves_forward (H := Fixture.codecs) Fixture.svc
              Fixture.archive_world _ sys _ sys' eq_refl Hrun Hstep)
    as [Hrows _].
  destruct (download_tasks (db (world sys)) !! 0%nat) as [t|] eqn:Ht.
  2: { vm_compute in Hrun. injection Hrun as <-. vm_compute in Ht.
       discriminate. }
  destruct (Hrows 0%nat t Ht) as (t' & Ht' & _ & Hst & _).
  assert (Hp : t_Status t = "processing").
  { vm_compute in Hrun. injection Hrun as <-. vm_compute in Ht.
    by injection Ht as <-. }
  assert (Hf : t_Status t' = "failed").
  { vm_compute in Hrun. injection Hrun as <-. vm_compute in Hstep.
    injection Hstep as <-. vm_compute in Ht'. by injection Ht' as <-. }
  exists sys, sys', t, t'. repeat split; try done.
  destruct Hst as [Hst|Hst]; [congruence|done].
Defined.

(** ** A build that fails while streaming *)

Section Failure.
Context `{Codecs}.
Variable s : DownloadService.




End Failure.



(** * More of the upload service *)

Lemma wrap64_small (x : Z) : - 2 ^ 63 <= x < 2 ^ 63 -> wrap64 x = x.
Proof.
  intros Hx. unfold wrap64.
  rewrite Z.mod_small by lia. lia.
Qed.



Lemma chunk_path_inj tempDir (i j : Z) :
  chunk_path tempDir i = chunk_path tempDir j -> i = j.
Proof.
  unfold chunk_path, Fs.filepath_Join. intros Heq.
  apply (inj (String.app tempDir)) in Heq.
  apply (inj (String.app "/")) in Heq.
  apply (inj (String.app "chunk_")) in Heq.
  by apply (inj pretty) in Heq.
Qed.

Lemma stage_chunk path data (fs : gmap string (list byte)) :
  Fs.file_Write path data (Fs.os_Create path fs) = <[path := data]> fs.
Proof.
  unfold Fs.file_Write, Fs.os_Create.
  by rewrite lookup_insert_eq, insert_insert_eq.
Qed.

Lemma mark_uploaded_comm (i j : Z) (s : UploadSession) :
  mark_uploaded j (mark_uploaded i s) = mark_uploaded i (mark_uploaded j s).
Proof.
  unfold mark_uploaded. simpl. f_equal.
  destruct (decide (i = j)) as [->|Hne]; [done|].
  by apply insert_insert_ne.
Qed.

Lemma mark_uploaded_twice (i : Z) (s : UploadSession) :
  mark_uploaded i (mark_uploaded i s) = mark_uploaded i s.
Proof. unfold mark_uploaded. simpl. f_equal. apply insert_insert_eq. Qed.

(** The state after a chunk call, in one expression. *)
Lemma UploadChunk_state uploadID i data sum w :
  (UploadChunk uploadID i data sum w).2
  = match uploadSessions w !! uploadID with
    | Some session =>
        if bool_decide (MD5.hex (MD5.Sum data) = sum) then
          {| uploadSessions :=
               <[uploadID := mark_uploaded i session]> (uploadSessions w);
             disk := <[chunk_path (us_TempDir session) i := data]> (disk w);
             db := db w |}
        else w
    | None => w
    end.
Proof.
  unfold UploadChunk. destruct (uploadSessions w !! uploadID); [|done].
  case_bool_decide; simpl; [|done].
  unfold with_sessions, with_disk. simpl. by rewrite stage_chunk.
Qed.



(** X3. Two [UploadChunk] calls for different indices of one session
    leave the same state in either order, whether their checksums match
    or not. *)
Theorem chunks_of_different_indices_commute
    (uploadID : string) (i j : Z) (di dj : list byte) (si sj : string)
    (w : World) :
  i <> j ->
  (UploadChunk uploadID j dj sj (UploadChunk uploadID i di si w).2).2
  = (UploadChunk uploadID i di si (UploadChunk uploadID j dj sj w).2).2.
Proof.
  intros Hne. rewrite !UploadChunk_state.
  destruct (uploadSessions w !! uploadID) as [session|] eqn:Hs;
    [|by rewrite Hs].
  destruct (bool_decide (MD5.hex (MD5.Sum di) = si)) eqn:Hi;
    destruct (bool_decide (MD5.hex (MD5.Sum dj) = sj)) eqn:Hj;
    simpl; rewrite ?lookup_insert_eq, ?Hs, ?Hi, ?Hj; simpl; try done.
  rewrite !insert_insert_eq, mark_uploaded_comm. f_equal.
  apply insert_insert_ne. intros Heq. by apply chunk_path_inj in Heq.
Qed.

(** The two chunks of [hello world], in either order. *)
Lemma chunks_of_different_indices_commute_witness :
  (UploadChunk Fixture.hello_id 1 (Fixture.bytes_of "world")
     "7d793037a0760186574b0282f2f435e7"
     (UploadChunk Fixture.hello_id 0 (Fixture.bytes_of "hello ")
        "f814893777bcc2295fff05f00e508da6" Fixture.hello_init).2).2
  = (UploadChunk Fixture.hello_id 0 (Fixture.bytes_of "hello ")
       "f814893777bcc2295fff05f00e508da6"
       (UploadChunk Fixture.hello_id 1 (Fixture.bytes_of "world")
          "7d793037a0760186574b0282f2f435e7" Fixture.hello_init).2).2.
Proof.
  apply (chunks_of_different_indices_commute Fixture.hello_id 0 1). lia.
Defined.

(** X4. A chunk sent again with other bytes, and the checksum of these
    bytes, replaces what an earlier call for the same index had staged:
    the state is the one the second call alone would have left. *)
Theorem retried_chunk_replaces_the_earlier_one
    (uploadID : string) (i : Z) (d1 d2 : list byte) (s1 : string) (w : World) :
  (UploadChunk uploadID i d2 (MD5.hex (MD5.Sum d2))
     (UploadChunk uploadID i d1 s1 w).2).2
  = (UploadChunk uploadID i d2 (MD5.hex (MD5.Sum d2)) w).2.
Proof.
  rewrite !UploadChunk_state.
  destruct (uploadSessions w !! uploadID) as [session|] eqn:Hs;
    [|by rewrite Hs].
  rewrite (bool_decide_eq_true_2 (MD5.hex (MD5.Sum d2) = MD5.hex (MD5.Sum d2)))
    by done.
  destruct (bool_decide (MD5.hex (MD5.Sum d1) = s1)); simpl;
    rewrite ?lookup_insert_eq, ?Hs; [|done].
  by rewrite !insert_insert_eq, mark_uploaded_twice.
Qed.

Lemma prefix_append (s t : string) : String.prefix s (s +:+ t) = true.
Proof.
  induction s as [|c s IH]; [by destruct t|].
  change (String.prefix (String c s) (String c (s +:+ t)) = true).
  simpl. by destruct (ascii_dec c c).
Qed.

Lemma append_assoc (s t u : string) : (s +:+ t) +:+ u = s +:+ (t +:+ u).
Proof.
  induction s as [|c s IH]; [done|].
  change (String c ((s +:+ t) +:+ u) = String c (s +:+ t +:+ u)).
  by rewrite IH.
Qed.

Lemma under_chunk_path tempDir (i : Z) :
  Fs.under tempDir (chunk_path tempDir i) = true.
Proof.
  unfold Fs.under, chunk_path, Fs.filepath_Join.
  rewrite <- append_assoc, prefix_append. apply orb_true_r.
Qed.

Lemma os_RemoveAll_lookup dir (fs : gmap string (list byte)) path :
  Fs.os_RemoveAll dir fs !! path
  = if Fs.under dir path then None else fs !! path.
Proof.
  unfold Fs.os_RemoveAll. destruct (Fs.under dir path) eqn:Hu.
  - apply map_lookup_filter_None. right. intros x _. simpl. congruence.
  - destruct (fs !! path) as [x|] eqn:Hp.
    + by apply map_lookup_filter_Some.
    + apply map_lookup_filter_None. by left.
Qed.








(** The loop of [GetUploadProgress] over the indices before the last one:
    each marked index counts one chunk of full size. *)
Lemma progress_prefix (s : UploadSession) (k : nat) :
  0 < us_ChunkSize s ->
  Z.of_nat k <= us_TotalChunks s - 1 ->
  (us_TotalChunks s - 1) * us_ChunkSize s < 2 ^ 63 ->
  exists c,
    0 <= c <= Z.of_nat k
    /\ foldl (progress_step s) (0, 0) (seqZ 0 (Z.of_nat k))
       = (c, c * us_ChunkSize s)
    /\ (c = Z.of_nat k <-> forall i, 0 <= i < Z.of_nat k -> uploaded s i = true).
Proof.
  intros Hcs Hk Hbound. induction k as [|k IH].
  - exists 0. simpl. split; [lia|]. split; [done|]. split; [intros _ i; lia|done].
  - destruct IH as (c & Hc & Hfold & Hall); [lia|].
    rewrite seqZ_S, foldl_app, Hfold. cbn [foldl]. unfold progress_step.
    cbn [fst snd]. rewrite Z.add_0_l.
    destruct (uploaded s (Z.of_nat k)) eqn:Hu.
    + exists (c + 1). split; [lia|].
      rewrite (proj2 (Z.eqb_neq _ _)) by lia.
      rewrite wrap64_small by nia.
      split; [f_equal; lia|]. split.
      * intros Heq i Hi. destruct (decide (i = Z.of_nat k)) as [->|Hne]; [done|].
        apply Hall; lia.
      * intros Hup. assert (c = Z.of_nat k); [|lia].
        apply Hall. intros i Hi. apply Hup. lia.
    + exists c. split; [lia|]. split; [done|]. split; [lia|].
      intros Hup. rewrite Hup in Hu by lia. done.
Qed.

(** X7. [GetUploadProgress] for a session with the numbers of [InitUpload]
    (a positive chunk size and a last chunk that is not empty): the counts
    stay within the totals, the status is [completed] or [uploading], and
    it is [completed] exactly when every index is marked, exactly when the
    uploaded size is the file size, exactly when the count of uploaded
    chunks is the total. *)
Theorem progress_reports_completion
    (uploadID : string) (w : World) (session : UploadSession) :
  uploadSessions w !! uploadID = Some session ->
  0 < us_ChunkSize session ->
  1 <= us_TotalChunks session ->
  (us_TotalChunks session - 1) * us_ChunkSize session < us_FileSize session ->
  us_FileSize session < 2 ^ 63 ->
  exists p,
    GetUploadProgress uploadID w = Ok p
    /\ up_TotalChunks p = us_TotalChunks session
    /\ up_FileSize p = us_FileSize session
    /\ 0 <= up_UploadedChunks p <= us_TotalChunks session
    /\ 0 <= up_UploadedSize p <= us_FileSize session
    /\ (up_Status p = "completed" \/ up_Status p = "uploading")
    /\ (up_Status p = "completed"
        <-> forall i, 0 <= i < us_TotalChunks session -> uploaded session i = true)
    /\ (up_Status p = "completed" <-> up_UploadedSize p = us_FileSize session)
    /\ (up_Status p = "completed"
        <-> up_UploadedChunks p = us_TotalChunks session).
Proof.
  intros Hs Hcs Ht Hlast Hfs.
  unfold GetUploadProgress, progress_count. rewrite Hs.
  set (n := us_TotalChunks session) in *.
  set (k := Z.to_nat (n - 1)).
  assert (Hn : n = Z.of_nat (S k)) by lia.
  destruct (progress_prefix session k) as (c & Hc & Hfold & Hall); [done|lia|lia|].
  replace (seqZ 0 n) with (seqZ 0 (Z.of_nat (S k))) by (f_equal; lia).
  rewrite seqZ_S, foldl_app, Hfold. cbn [foldl].
  unfold progress_step. cbn [fst snd]. rewrite Z.add_0_l.
  assert (Hk : Z.of_nat k = n - 1) by lia.
  fold n. rewrite Hk, Z.eqb_refl.
  destruct (uploaded session (n - 1)) eqn:Hu.
  - rewrite (wrap64_small ((n - 1) * us_ChunkSize session)) by nia.
    rewrite (wrap64_small (us_FileSize session - _)) by nia.
    rewrite wrap64_small by nia.
    eexists. split; [reflexivity|]. cbn.
    split; [done|]. split; [done|]. split; [lia|]. split; [nia|].
    destruct (decide (c = n - 1)) as [Hceq|Hcne].
    + rewrite (proj2 (Z.eqb_eq (c + 1) n)) by lia.
      split; [by left|]. split; [|split; [split; [intros _; nia|done]|split; [lia|done]]].
      split; [|done]. intros _ i Hi.
      destruct (decide (i = n - 1)) as [->|Hne]; [done|].
      apply Hall; lia.
    + rewrite (proj2 (Z.eqb_neq (c + 1) n)) by lia.
      split; [by right|]. split; [|split; [split; [done|intros; nia]|split; [done|lia]]].
      split; [done|]. intros Hup. exfalso. apply Hcne. rewrite <- Hk.
      apply Hall. intros i Hi. apply Hup. lia.
  - rewrite (proj2 (Z.eqb_neq c n)) by lia.
    eexists. split; [reflexivity|]. cbn.
    split; [done|]. split; [done|]. split; [lia|]. split; [nia|].
    split; [by right|]. split; [|split; [split; [done|intros; nia]|split; [done|lia]]].
    split; [done|]. intros Hup. rewrite Hup in Hu by lia. done.
Qed.

(** The progress of [hello world] after its first chunk. *)
Lemma progress_reports_completion_witness :
  exists p,
    GetUploadProgress Fixture.hello_id Fixture.hello_chunk0 = Ok p
    /\ up_TotalChunks p = 2
    /\ up_FileSize p = 11.
Proof.
  destruct (uploadSessions Fixture.hello_chunk0 !! Fixture.hello_id)
    as [session|] eqn:Hs; [|vm_compute in Hs; discriminate].
  destruct (progress_reports_completion _ _ session Hs)
    as (p & Hp & Htotal & Hsize & _).
  - vm_compute in Hs. injection Hs as <-. vm_compute. reflexivity.
  - vm_compute in Hs. injection Hs as <-. vm_compute. discriminate.
  - vm_compute in Hs. injection Hs as <-. vm_compute. reflexivity.
  - vm_compute in Hs. injection Hs as <-. vm_compute. reflexivity.
  - exists p. split; [exact Hp|]. rewrite Htotal, Hsize.
    vm_compute in Hs. injection Hs as <-. split; reflexivity.
Defined.

(** X8. [CancelUpload] on a known session removes the session and every
    file under its staging directory, and nothing else: the database and
    every other path are as before. Afterwards each operation on the id,
    a second cancel included, answers that the session does not exist. *)
Theorem cancel_removes_session_and_staging
    (uploadID : string) (w : World) (session : UploadSession) :
  uploadSessions w !! uploadID = Some session ->
  exists w',
    CancelUpload uploadID w = (None, w')
    /\ uploadSessions w' = delete uploadID (uploadSessions w)
    /\ db w' = db w
    /\ (forall i, disk w' !! chunk_path (us_TempDir session) i = None)
    /\ (forall path, Fs.under (us_TempDir session) path = false ->
          disk w' !! path = disk w !! path)
    /\ (forall i data sum,
          UploadChunk uploadID i data sum w' = (Some ErrSessionNotFound, w'))
    /\ (forall cfg now,
          CompleteUpload cfg now uploadID w' = (Err ErrSessionNotFound, w'))
    /\ GetUploadProgress uploadID w' = Err ErrSessionNotFound
    /\ CancelUpload uploadID w' = (Some ErrSessionNotFound, w').
Proof.
  intros Hs. unfold CancelUpload at 1. rewrite Hs.
  eexists. split; [reflexivity|].
  split; [done|]. split; [done|].
  split; [intros i; simpl; by rewrite os_RemoveAll_lookup, under_chunk_path|].
  split; [intros path Hu; simpl; by rewrite os_RemoveAll_lookup, Hu|].
  unfold UploadChunk, CompleteUpload, GetUploadProgress, CancelUpload. simpl.
  rewrite lookup_delete_eq. done.
Qed.

(** The upload of [hello world], cancelled after both chunks. *)
Lemma cancel_removes_session_and_staging_witness :
  exists w',
    CancelUpload Fixture.hello_id Fixture.hello_chunks = (None, w')
    /\ GetUploadProgress Fixture.hello_id w' = Err ErrSessionNotFound
    /\ db w' = db Fixture.hello_chunks.
Proof.
  destruct (uploadSessions Fixture.hello_chunks !! Fixture.hello_id)
    as [session|] eqn:Hs; [|vm_compute in Hs; discriminate].
  destruct (cancel_removes_session_and_staging _ _ session Hs)
    as (w' & Hc & _ & Hdb & _ & _ & _ & _ & Hp & _).
  exists w'. split; [exact Hc|]. split; [exact Hp|exact Hdb].
Defined.

(** ** File names and fingerprints *)








Lemma lower_ascii_idemp (c : ascii) :
  Fs.lower_ascii (Fs.lower_ascii c) = Fs.lower_ascii c.
Proof. destruct c as [[] [] [] [] [] [] [] []]; reflexivity. Qed.





Lemma hex_digit_char (x : Z) :
  0 <= x < 16 ->
  exists c, MD5.hex_digit x = String c EmptyString /\ lower_hex c.
Proof.
  intros Hx.
  assert (Hcases : x = 0 \/ x = 1 \/ x = 2 \/ x = 3 \/ x = 4 \/ x = 5 \/ x = 6
                   \/ x = 7 \/ x = 8 \/ x = 9 \/ x = 10 \/ x = 11 \/ x = 12
                   \/ x = 13 \/ x = 14 \/ x = 15) by lia.
  unfold lower_hex.
  repeat (destruct Hcases as [-> | Hcases];
          [eexists; split; [reflexivity|]; set_solver|]).
  subst x. eexists. split; [reflexivity|]. set_solver.
Qed.

Lemma hex_format (bs : list Z) :
  Forall (fun b => 0 <= b < 256) bs ->
  String.length (MD5.hex bs) = (2 * length bs)%nat
  /\ Forall lower_hex (String.list_ascii_of_string (MD5.hex bs)).
Proof.
  induction 1 as [|b bs Hb Hbs [IHlen IHch]]; [by split|].
  unfold MD5.hex. cbn [foldr]. fold (MD5.hex bs).
  destruct (hex_digit_char (b `div` 16)) as (c1 & -> & Hc1).
  { split; [apply Z.div_pos; lia | apply Z.div_lt_upper_bound; lia]. }
  destruct (hex_digit_char (b `mod` 16)) as (c2 & -> & Hc2).
  { apply Z.mod_pos_bound. lia. }
  change (String c1 "" +:+ String c2 "" +:+ MD5.hex bs)
    with (String c1 (String c2 (MD5.hex bs))).
  split.
  - cbn [String.length]. rewrite IHlen. cbn [length]. lia.
  - change (Forall lower_hex
              (c1 :: c2 :: String.list_ascii_of_string (MD5.hex bs))).
    by repeat (apply Forall_cons; split; [done|]).
Qed.

Lemma le_bytes_range (n : nat) (x : Z) :
  length (MD5.le_bytes n x) = n
  /\ Forall (fun b => 0 <= b < 256) (MD5.le_bytes n x).
Proof.
  unfold MD5.le_bytes. split; [by rewrite length_map, length_seq|].
  apply Forall_forall. intros b Hb.
  apply list_elem_of_In, in_map_iff in Hb as (k & <- & _).
  change 255 with (Z.ones 8). rewrite Z.land_ones by lia.
  apply Z.mod_pos_bound. lia.
Qed.

Lemma Sum_format (data : list byte) :
  String.length (MD5.hex (MD5.Sum data)) = 32%nat
  /\ Forall lower_hex (String.list_ascii_of_string (MD5.hex (MD5.Sum data))).
Proof.
  assert (Hsum : length (MD5.Sum data) = 16%nat
                 /\ Forall (fun b => 0 <= b < 256) (MD5.Sum data)).
  { unfold MD5.Sum. cbv zeta.
    set (st := foldl MD5.block MD5.init _).
    destruct (le_bytes_range 4 (MD5.dA st)) as [Ha1 Ha2].
    destruct (le_bytes_range 4 (MD5.dB st)) as [Hb1 Hb2].
    destruct (le_bytes_range 4 (MD5.dC st)) as [Hc1 Hc2].
    destruct (le_bytes_range 4 (MD5.dD st)) as [Hd1 Hd2].
    split.
    - rewrite !length_app. lia.
    - by repeat (apply Forall_app; split). }
  destruct Hsum as [Hlen Hrange].
  destruct (hex_format _ Hrange) as [Hl Hc]. split; [|done].
  rewrite Hl, Hlen. done.
Qed.

(** X10. The checksum comparisons are exact comparisons with the output
    of [%x]: a chunk checksum that [UploadChunk] accepts, and the hash of a
    file that [CompleteUpload] stores, is 32 digits of lower case
    hexadecimal. A declared hash in upper case is never accepted. *)
Theorem accepted_hashes_are_lower_case_hex :
  (forall uploadID i data sum w w',
     UploadChunk uploadID i data sum w = (None, w') ->
     String.length sum = 32%nat
     /\ Forall lower_hex (String.list_ascii_of_string sum))
  /\ (forall cfg now uploadID w f w',
        CompleteUpload cfg now uploadID w = (Ok f, w') ->
        String.length (fi_MD5Hash f) = 32%nat
        /\ Forall lower_hex (String.list_ascii_of_string (fi_MD5Hash f))).
Proof.
  split.
  - intros uploadID i data sum w w'. unfold UploadChunk.
    destruct (uploadSessions w !! uploadID); [|done].
    case_bool_decide as Hsum; [|done]. intros _. subst sum.
    apply Sum_format.
  - intros cfg now uploadID w f w'. unfold CompleteUpload.
    destruct (uploadSessions w !! uploadID) as [session|]; [|done].
    destruct (first_missing session); [done|].
    destruct (merge_chunks _ _ _ _) as [[missing|] fs]; [done|].
    case_bool_decide as Hsum; simpl; [|done].
    intros [= <- _]. simpl. rewrite <- Hsum. apply Sum_format.
Qed.

(** The checksum of the first chunk of [hello world]. *)
Lemma accepted_hashes_are_lower_case_hex_witness :
  String.length "f814893777bcc2295fff05f00e508da6" = 32%nat
  /\ Forall lower_hex
       (String.list_ascii_of_string "f814893777bcc2295fff05f00e508da6").
Proof.
  apply (proj1 accepted_hashes_are_lower_case_hex Fixture.hello_id 0
           (Fixture.bytes_of "hello ") "f814893777bcc2295fff05f00e508da6"
           Fixture.hello_init Fixture.hello_chunk0).
  vm_compute. reflexivity.
Defined.

(** * More of the download service *)

Lemma member_count (members : list (N * N)) (m : N * N) :
  bool_decide (0 < length (filter (fun x => x = m) members))%nat = true
  <-> m ∈ members.
Proof.
  rewrite bool_decide_eq_true. split.
  - intros Hlen. destruct (filter _ members) as [|x l] eqn:Hf; [simpl in Hlen; lia|].
    assert (Hx : x ∈ filter (fun x => x = m) members) by (rewrite Hf; left).
    apply list_elem_of_filter in Hx as [-> ?]. done.
  - intros Hin.
    assert (Hm : m ∈ filter (fun x => x = m) members)
      by (by apply list_elem_of_filter).
    destruct (filter _ members); [by apply elem_of_nil in Hm|simpl; lia].
Qed.

Lemma hasFilePermission_iff userID (file : File) (d : DB) :
  hasFilePermission userID file d = true
  <-> f_OwnerID file = userID
      \/ (f_WorkflowID file, userID) ∈ workflow_members d.
Proof.
  unfold hasFilePermission.
  by rewrite orb_true_iff, bool_decide_eq_true, member_count.
Qed.

Lemma elem_of_validateFilePermissions userID fileIDs (d : DB) (id : N) :
  id ∈ validateFilePermissions userID fileIDs d
  <-> id ∈ fileIDs
      /\ exists f, f ∈ files d /\ f_ID f = id
           /\ (f_OwnerID f = userID
               \/ (f_WorkflowID f, userID) ∈ workflow_members d).
Proof.
  unfold validateFilePermissions, files_in.
  rewrite list_elem_of_In, in_map_iff. split.
  - intros (f & <- & Hf). apply list_elem_of_In in Hf.
    apply list_elem_of_filter in Hf as [Hperm Hf].
    apply list_elem_of_filter in Hf as [Hid Hf].
    apply hasFilePermission_iff in Hperm. eauto.
  - intros (Hid & f & Hf & <- & Hperm). exists f. split; [done|].
    apply list_elem_of_In, list_elem_of_filter.
    split; [by apply hasFilePermission_iff|]. by apply list_elem_of_filter.
Qed.

(** X11. [validateFilePermissions] keeps exactly the requested ids of
    stored files that the user owns or whose workflow the user is a member
    of, and never yields more ids than there are stored files. *)
Theorem permission_filter_is_exact
    (userID : N) (fileIDs : list N) (d : DB) (id : N) :
  (id ∈ validateFilePermissions userID fileIDs d
   <-> id ∈ fileIDs
       /\ exists f, f ∈ files d /\ f_ID f = id
            /\ (f_OwnerID f = userID
                \/ (f_WorkflowID f, userID) ∈ workflow_members d))
  /\ (length (validateFilePermissions userID fileIDs d) <= length (files d))%nat.
Proof.
  split; [apply elem_of_validateFilePermissions|].
  unfold validateFilePermissions, files_in. rewrite length_map.
  etrans; [apply length_filter|]. apply length_filter.
Qed.

(** User 7 owns files 1 and 2; there is no file 3. *)
Lemma permission_filter_is_exact_witness :
  validateFilePermissions 7 [1; 2; 3]%N (db Fixture.archive_world) = [1; 2]%N
  /\ 2%N ∈ validateFilePermissions 7 [1; 2; 3]%N (db Fixture.archive_world)
  /\ (3%N ∉ validateFilePermissions 7 [1; 2; 3]%N (db Fixture.archive_world)).
Proof.
  split; [vm_compute; reflexivity|]. split.
  - apply (permission_filter_is_exact 7 [1; 2; 3]%N (db Fixture.archive_world) 2).
    split; [apply list_elem_of_In; vm_compute; tauto|].
    exists (Fixture.stored_file 2 "b.txt").
    split; [apply list_elem_of_In; vm_compute; tauto|].
    split; [reflexivity|]. left. reflexivity.
  - intros Hin.
    apply (permission_filter_is_exact 7 [1; 2; 3]%N (db Fixture.archive_world) 3)
      in Hin as (_ & f & Hf & Hid & _).
    apply list_elem_of_In in Hf. vm_compute in Hf.
    destruct Hf as [<-|[<-|[]]]; discriminate.
Defined.

(** The sweep removes the container of every task it selects. *)
Lemma remove_zips_removed (l : list DownloadTask) (fs : gmap string (list byte))
    (t : DownloadTask) :
  t ∈ l -> t_ZipFilePath t <> "" ->
  foldl remove_zip fs l !! t_ZipFilePath t = None.
Proof.
  revert fs. induction l as [|t0 l IH]; intros fs Hin Hne.
  - by apply elem_of_nil in Hin.
  - cbn [foldl]. apply elem_of_cons in Hin as [->|Hin]; [|by apply IH].
    destruct (remove_zips_lookup l (remove_zip fs t0) (t_ZipFilePath t0))
      as [Heq | [Hnone _]]; [|done].
    rewrite Heq. unfold remove_zip, Fs.os_Remove.
    rewrite bool_decide_eq_true_2 by done. apply lookup_delete_eq.
Qed.

Lemma sweep_row_idemp now (t : DownloadTask) :
  let f := fun t => if expired now t && visible t then set_deleted now t else t in
  f (f t) = f t /\ expired now (f t) && visible (f t) = false.
Proof.
  simpl. destruct (expired now t && visible t) eqn:Hsel.
  - assert (Hv : visible (set_deleted now t) = false) by done.
    rewrite Hv, andb_false_r. done.
  - by rewrite Hsel.
Qed.

(** X12. [CleanExpiredTasks] run twice at the same time is the same as
    run once. *)
Theorem sweep_is_idempotent (now : Z) (w : World) :
  CleanExpiredTasks now (CleanExpiredTasks now w) = CleanExpiredTasks now w.
Proof.
  unfold CleanExpiredTasks at 1. 
  assert (Hnone : filter (fun t => expired now t && visible t = true)
                    (download_tasks (db (CleanExpiredTasks now w))) = []).
  { simpl. induction (download_tasks (db w)) as [|t l IH]; [done|].
    rewrite fmap_cons, filter_cons.
    destruct (sweep_row_idemp now t) as [_ Hsel]. simpl in Hsel.
    rewrite decide_False; [exact IH|]. by rewrite Hsel. }
  rewrite Hnone. cbn [foldl].
  assert (Hrows : update_tasks (expired now) (set_deleted now)
                    (db (CleanExpiredTasks now w))
                  = db (CleanExpiredTasks now w)).
  { simpl. unfold update_tasks. simpl. f_equal.
    rewrite <- list_fmap_compose. apply list_fmap_ext.
    intros k t _. simpl. apply sweep_row_idemp. }
  rewrite Hrows. by destruct (CleanExpiredTasks now w).
Qed.

Lemma find_fresh_row {A} (f : A -> bool) (l : list A) (x : A) :
  Forall (fun y => f y = false) l -> f x = true ->
  List.find f (l ++ [x]) = Some x.
Proof.
  intros Hl Hx. rewrite find_app_first.
  destruct (List.find f l) as [y|] eqn:Hfind.
  - apply find_some in Hfind as [Hin Hy]. rewrite Forall_forall in Hl.
    apply list_elem_of_In in Hin. rewrite (Hl y Hin) in Hy. done.
  - simpl. by rewrite Hx.
Qed.

Section Requests.
Context `{Codecs}.
Variable s : DownloadService.

Lemma CreateBatchDownloadTask_outcomes now userID req w :
  keys_drawn (db w) = true ->
  let valid := validateFilePermissions userID (bd_FileIDs req) (db w) in
  (valid = [] ->
   CreateBatchDownloadTask now userID req w = (Err ErrNoDownloadableFiles, w, None))
  /\ (valid <> [] ->
      exists info row w',
        CreateBatchDownloadTask now userID req w = (Ok info, w', Some (t_ID row))
        /\ download_tasks (db w') = download_tasks (db w) ++ [row]
        /\ t_ID row = (tasks_seq (db w) + 1)%N
        /\ t_UserID row = userID
        /\ t_TaskName row = bd_TaskName req
        /\ t_FileIDs row = json_Marshal valid
        /\ t_Status row = "pending"
        /\ t_ErrorMsg row = "" /\ untouched row
        /\ ti_ID info = t_ID row
        /\ ti_Status info = "pending"
        /\ ti_FileCount info = Z.of_nat (length valid)
        /\ uploadSessions w' = uploadSessions w
        /\ disk w' = disk w
        /\ files (db w') = files (db w)
        /\ find_task (t_ID row) (db w') = Some row
        /\ (exists info', GetDownloadTask userID (t_ID row) w' = Ok info'
              /\ ti_ID info' = t_ID row /\ ti_Status info' = "pending")
        /\ (forall other, other <> userID ->
              GetDownloadTask other (t_ID row) w' = Err ErrTaskNotFound)).
Proof.
  intros Hkeys valid. unfold CreateBatchDownloadTask. fold valid.
  split; [by intros ->|]. intros Hne.
  destruct valid as [|x l] eqn:Hvalid; [done|]. rewrite <- Hvalid.
  eexists _, _, _. split; [reflexivity|]. simpl.
  assert (Hold : Forall (fun t => bool_decide (t_ID t = (tasks_seq (db w) + 1)%N) = false)
                        (download_tasks (db w))).
  { unfold keys_drawn in Hkeys. rewrite forallb_forall in Hkeys.
    apply Forall_forall. intros t Ht. apply bool_decide_eq_false.
    apply list_elem_of_In, Hkeys, N.leb_le in Ht. lia. }
  repeat split; try done.
  - unfold find_task. simpl. apply find_fresh_row.
    + eapply Forall_impl; [exact Hold|]. intros t ->. done.
    + simpl. by rewrite bool_decide_eq_true_2.
  - unfold GetDownloadTask. simpl. rewrite find_fresh_row.
    + eexists. split; [reflexivity|]. done.
    + eapply Forall_impl; [exact Hold|]. intros t ->. done.
    + simpl. by rewrite !bool_decide_eq_true_2.
  - intros other Hother. unfold GetDownloadTask. simpl.
    rewrite find_app_first.
    destruct (List.find _ (download_tasks (db w))) as [t|] eqn:Hfind.
    + apply find_some in Hfind as [Hin Ht]. rewrite Forall_forall in Hold.
      apply list_elem_of_In in Hin. by rewrite (Hold t Hin) in Ht.
    + simpl. rewrite bool_decide_eq_true_2 by done.
      by rewrite (bool_decide_eq_false_2 (userID = other)).
Qed.

(** X13. [CreateBatchDownloadTask], on a table whose keys were drawn from
    its counter: without an accessible file the request fails and changes
    nothing; otherwise it appends one [pending] row under the next key,
    with the user, the name and the encoded list of accessible ids, leaves
    sessions, disk and stored files alone, answers with the row's key and
    the number of accessible files, and spawns the builder of that key.
    The requester then sees the task as [pending]; another user does not
    see it. *)
Theorem batch_request_creates_a_pending_task
    (now : Z) (userID : N) (req : BatchDownloadRequest) (w : World) :
  keys_drawn (db w) = true ->
  (validateFilePermissions userID (bd_FileIDs req) (db w) = [] ->
   CreateBatchDownloadTask now userID req w = (Err ErrNoDownloadableFiles, w, None))
  /\ (validateFilePermissions userID (bd_FileIDs req) (db w) <> [] ->
      exists info row w',
        CreateBatchDownloadTask now userID req w = (Ok info, w', Some (t_ID row))
        /\ download_tasks (db w') = download_tasks (db w) ++ [row]
        /\ t_ID row = (tasks_seq (db w) + 1)%N
        /\ t_UserID row = userID
        /\ t_TaskName row = bd_TaskName req
        /\ t_FileIDs row
           = json_Marshal (validateFilePermissions userID (bd_FileIDs req) (db w))
        /\ t_Status row = "pending"
        /\ t_ErrorMsg row = "" /\ untouched row
        /\ ti_ID info = t_ID row
        /\ ti_Status info = "pending"
        /\ ti_FileCount info
           = Z.of_nat (length (validateFilePermissions userID (bd_FileIDs req) (db w)))
        /\ uploadSessions w' = uploadSessions w
        /\ disk w' = disk w
        /\ files (db w') = files (db w)
        /\ find_task (t_ID row) (db w') = Some row
        /\ (exists info', GetDownloadTask userID (t_ID row) w' = Ok info'
              /\ ti_ID info' = t_ID row /\ ti_Status info' = "pending")
        /\ (forall other, other <> userID ->
              GetDownloadTask other (t_ID row) w' = Err ErrTaskNotFound)).
Proof. intros Hkeys. by apply CreateBatchDownloadTask_outcomes. Qed.








(** X16. After the sweep, a task whose visible rows were all selected
    (completed, with an expiry before the time of the sweep) is not found,
    by its requester or by anybody else, and the container path its rows
    recorded holds no file. *)
Theorem expired_task_is_gone_after_the_sweep
    (now : Z) (userID taskID : N) (w : World) :
  (forall t, t ∈ download_tasks (db w) -> t_ID t = taskID -> visible t = true ->
     expired now t = true) ->
  GetDownloadTask userID taskID (CleanExpiredTasks now w) = Err ErrTaskNotFound
  /\ find_task taskID (db (CleanExpiredTasks now w)) = None
  /\ (forall t, t ∈ download_tasks (db w) -> t_ID t = taskID ->
        visible t = true -> t_ZipFilePath t <> "" ->
        disk (CleanExpiredTasks now w) !! t_ZipFilePath t = None).
Proof.
  intros Hexp.
  assert (Hgone : forall t', t' ∈ download_tasks (db (CleanExpiredTasks now w)) ->
            bool_decide (t_ID t' = taskID) && visible t' = false).
  { intros t' Ht'. simpl in Ht'.
    apply list_elem_of_fmap in Ht' as (t & -> & Ht).
    destruct (decide (t_ID t = taskID)) as [Hid|Hid].
    - destruct (visible t) eqn:Hv.
      + rewrite (Hexp t Ht Hid Hv). simpl. apply andb_false_r.
      + rewrite andb_false_r, Hv. apply andb_false_r.
    - assert (t_ID (if expired now t && visible t then set_deleted now t else t)
              = t_ID t) as -> by (by destruct (expired now t && visible t)).
      by rewrite bool_decide_eq_false_2. }
  split; [|split].
  - unfold GetDownloadTask.
    destruct (List.find _ _) as [t'|] eqn:Hfind; [|done].
    apply find_some in Hfind as [Hin Hc]. apply list_elem_of_In, Hgone in Hin.
    apply andb_prop in Hc as [Hc Hv]. apply andb_prop in Hc as [Hc _].
    by rewrite Hc, Hv in Hin.
  - unfold find_task.
    destruct (List.find _ _) as [t'|] eqn:Hfind; [|done].
    apply find_some in Hfind as [Hin Hc]. apply list_elem_of_In, Hgone in Hin.
    by rewrite Hc in Hin.
  - intros t Ht Hid Hv Hzip. simpl. apply remove_zips_removed; [|done].
    apply list_elem_of_filter. split; [|done].
    by rewrite (Hexp t Ht Hid Hv), Hv.
Qed.

End Requests.

(** The request of user 7 for files 1 and 2. *)
Lemma batch_request_creates_a_pending_task_witness :
  exists info row w',
    CreateBatchDownloadTask (H := Fixture.codecs) 200 7 Fixture.archive_req
      Fixture.archive_world = (Ok info, w', Some (t_ID row))
    /\ t_ID row = 1%N
    /\ t_Status row = "pending"
    /\ t_FileIDs row = "[1,2]".
Proof.
  destruct (batch_request_creates_a_pending_task (H := Fixture.codecs) 200 7
              Fixture.archive_req Fixture.archive_world eq_refl)
    as [_ Hcreate].
  destruct Hcreate
    as (info & row & w' & Hc & _ & Hid & _ & _ & Hids & Hst & _).
  - vm_compute. discriminate.
  - exists info, row, w'. split; [exact Hc|]. split; [exact Hid|].
    split; [exact Hst|]. rewrite Hids. vm_compute. reflexivity.
Defined.



(** The task built at 201 expires at 86601; a sweep at 90000 takes it. *)
Lemma expired_task_is_gone_after_the_sweep_witness :
  GetDownloadTask (H := Fixture.codecs) 7 1
    (CleanExpiredTasks 90000 Fixture.built_world) = Err ErrTaskNotFound
  /\ find_task 1 (db (CleanExpiredTasks 90000 Fixture.built_world)) = None.
Proof.
  destruct (expired_task_is_gone_after_the_sweep (H := Fixture.codecs)
              90000 7 1 Fixture.built_world)
    as (Hget & Hfind & _).
  - intros t Ht _ _. apply list_elem_of_In in Ht. vm_compute in Ht.
    destruct Ht as [<-|[]]. vm_compute. reflexivity.
  - split; [exact Hget|exact Hfind].
Defined.

(** ** Retrieving a container *)

Lemma strings_Split_cons sep (text : string) :
  exists piece pieces, strings_Split sep text = piece :: pieces.
Proof.
  destruct text as [|c rest]; simpl; [eauto|].
  case_bool_decide; [eauto|]. destruct (strings_Split sep rest); eauto.
Qed.
















Lemma strings_Split_length sep (text : string) :
  length (strings_Split sep text)
  = S (length (filter (fun c => c = sep) (String.list_ascii_of_string text))).
Proof.
  induction text as [|c rest IH]; [done|]. simpl.
  case_bool_decide as Hc.
  - rewrite filter_cons_True by done. simpl. by rewrite IH.
  - rewrite filter_cons_False by done. rewrite <- IH.
    by destruct (strings_Split_cons sep rest) as (piece & pieces & ->).
Qed.

(** X18. [DownloadZipFile] answers that the file name is malformed exactly
    when the name has fewer than two underscores. *)
Theorem name_with_fewer_than_two_separators_is_refused
    (s : DownloadService) (userID : N) (fileName : string) (w : World) :
  DownloadZipFile s userID fileName w = Err ErrBadFileName
  <-> (length (filter (fun c => c = "_"%char)
                      (String.list_ascii_of_string fileName)) < 2)%nat.
Proof.
  unfold DownloadZipFile. rewrite strings_Split_length.
  destruct (S _ <? 3)%nat eqn:Hlen.
  - apply Nat.ltb_lt in Hlen. split; [lia|done].
  - apply Nat.ltb_ge in Hlen. split; [|lia].
    destruct (last_but_one _ ≫= strconv_ParseUint32) as [n|]; [|done].
    destruct (negb _); [done|]. by destruct (disk w !! _).
Qed.

Section Served.
Context `{Codecs}.
Variable s : DownloadService.


End Served.


(** ** From the request to the container *)


Section Scenario.
Context `{Codecs}.
Variable s : DownloadService.


End Scenario.


(** ** Tasks without a builder *)

Section Stranded.
Context `{Codecs}.
Variable s : DownloadService.

Lemma stranded_step taskID task ev sys sys' :
  stranded taskID task sys -> step s ev sys = Some sys' ->
  stranded taskID task sys'.
Proof.
  intros (Hle & Hnone & Hopen & Hfind).
  assert (Hmap : forall (f : DownloadTask -> DownloadTask) d',
            download_tasks d' = f <$> download_tasks (db (world sys)) ->
            (forall t, t ∈ download_tasks (db (world sys)) ->
               t_ID (f t) = t_ID t /\ (t_ID t = taskID -> f t = t)) ->
            (forall t, t ∈ download_tasks d' -> t_ID t = taskID ->
               t_Status t <> "completed")
            /\ find_task taskID d' = Some task).
  { intros f d' Hd' Hf. split.
    - intros t'. rewrite Hd'. intros Ht' Hid.
      apply list_elem_of_fmap in Ht' as (t & -> & Ht).
      destruct (Hf t Ht) as [Hidf Hsame]. rewrite Hidf in Hid.
      rewrite (Hsame Hid). by apply Hopen.
    - rewrite <- Hfind. by eapply find_task_keep. }
  destruct ev as [now userID req | now id | now id | now
                 | sessions fs fls fseq members]; simpl.
  - destruct (CreateBatchDownloadTask_effect now userID req (world sys))
      as [[r ->] | (r & row & -> & Hid & Hst & Hun)]; intros [= <-].
    + unfold stranded. simpl. by rewrite app_nil_r.
    + unfold stranded. simpl. split; [lia|]. split; [|split].
      * rewrite !elem_of_app, list_elem_of_singleton.
        rewrite elem_of_app in Hnone. intros [[?|?]|?]; [tauto|lia|tauto].
      * intros t Ht Hidt. apply elem_of_app in Ht as [Ht|Ht]; [by apply Hopen|].
        apply list_elem_of_singleton in Ht as ->. lia.
      * unfold find_task in *. simpl. rewrite find_app_first, Hfind. done.
  - case_bool_decide as Hin; [|done]. intros [= <-].
    assert (Hne : id <> taskID).
    { intros ->. apply Hnone, elem_of_app. by left. }
    unfold stranded. cbn [world spawned running mark_processing with_db db].
    split; [done|]. split.
    + rewrite !elem_of_app, list_elem_of_singleton, elem_of_without.
      rewrite elem_of_app in Hnone. intros [[_ ?]|[?|?]]; [tauto|tauto|done].
    + apply (Hmap (fun t => if has_id id t && visible t
                            then set_processing now t else t)); [done|].
      intros t Ht. unfold has_id.
      case_bool_decide as Heq; simpl.
      * split; [by destruct (visible t)|]. congruence.
      * done.
  - case_bool_decide as Hin; [|done]. intros [= <-].
    assert (Hne : id <> taskID).
    { intros ->. apply Hnone, elem_of_app. by right. }
    destruct (build_archive_tasks s now id (world sys)) as (u & Hu & Hdb).
    unfold stranded. cbn [world spawned running]. rewrite Hdb.
    split; [done|]. split.
    + rewrite elem_of_app, elem_of_without.
      rewrite elem_of_app in Hnone. intros [?|[_ ?]]; tauto.
    + apply (Hmap (fun t => if has_id id t && visible t then u t else t));
        [done|].
      intros t Ht. unfold has_id.
      case_bool_decide as Heq; simpl.
      * split; [|congruence]. destruct (visible t); [|done]. apply Hu.
      * done.
  - intros [= <-]. unfold stranded.
    cbn [world spawned running CleanExpiredTasks db].
    split; [done|]. split; [done|].
    apply (Hmap (fun t => if expired now t && visible t
                          then set_deleted now t else t)); [done|].
    intros t Ht.
    split; [by destruct (expired now t && visible t)|].
    intros Hid. unfold expired.
    rewrite (bool_decide_eq_false_2 _ (Hopen t Ht Hid)).
    by rewrite andb_false_r.
  - intros [= <-]. unfold stranded. simpl. done.
Qed.

(** X21. A builder exists only for a task created by a request in the
    running process. A task that the table holds when the process starts,
    and that is not [completed], stays as it is through every run of
    requests, builders, sweeps and other operations: no builder is ever
    started or finished for it, and a query finds the same record. *)
Theorem task_without_builder_is_never_built
    (w0 : World) (taskID : N) (task : DownloadTask) (evs : list event)
    (sys : System) :
  keys_drawn (db w0) = true ->
  find_task taskID (db w0) = Some task ->
  (forall t, t ∈ download_tasks (db w0) -> t_ID t = taskID ->
     t_Status t <> "completed") ->
  run s evs (boot w0) = Some sys ->
  find_task taskID (db (world sys)) = Some task
  /\ (taskID ∉ spawned sys ++ running sys)
  /\ step s (EvBegin 0 taskID) sys = None
  /\ step s (EvFinish 0 taskID) sys = None.
Proof.
  intros Hkeys Hfind Hopen Hrun.
  assert (Hstart : stranded taskID task (boot w0)).
  { unfold stranded. simpl. split; [|split; [|done]].
    - unfold keys_drawn in Hkeys. rewrite forallb_forall in Hkeys.
      unfold find_task in Hfind. apply find_some in Hfind as [Hin Hc].
      apply andb_prop in Hc as [Hid _]. apply bool_decide_eq_true in Hid.
      apply Hkeys, N.leb_le in Hin. lia.
    - apply not_elem_of_nil. }
  clear Hfind Hopen Hkeys.
  assert (Hend : stranded taskID task sys).
  { revert Hstart Hrun. generalize (boot w0). clear w0.
    induction evs as [|ev evs IH]; intros sys0 Hstart; simpl.
    - by intros [= <-].
    - destruct (step s ev sys0) as [sys1|] eqn:Hstep; [|done].
      apply IH. by eapply stranded_step. }
  destruct Hend as (_ & Hnone & _ & Hfound).
  split; [done|]. split; [done|].
  rewrite elem_of_app in Hnone. simpl.
  rewrite !bool_decide_eq_false_2; tauto.
Qed.

End Stranded.

(** The process starts with task 1 pending. A second request, its build
    and a sweep later, task 1 is still pending and has no builder. *)
Lemma task_without_builder_is_never_built_witness :
  exists sys task,
    run (H := Fixture.codecs) Fixture.svc
      [EvCreate 300 7 Fixture.one_file_req; EvBegin 301 2;
       EvFinish 302 2; EvClean 400000]
      (boot Fixture.requested_world) = Some sys
    /\ find_task 1 (db (world sys)) = Some task
    /\ t_Status task = "pending"
    /\ step (H := Fixture.codecs) Fixture.svc (EvBegin 400001 1) sys = None.
Proof.
  destruct (run (H := Fixture.codecs) Fixture.svc
              [EvCreate 300 7 Fixture.one_file_req; EvBegin 301 2;
               EvFinish 302 2; EvClean 400000]
              (boot Fixture.requested_world)) as [sys|] eqn:Hrun;
    [|vm_compute in Hrun; discriminate].
  destruct (find_task 1 (db Fixture.requested_world)) as [task|] eqn:Hfind;
    [|vm_compute in Hfind; discriminate].
  destruct (task_without_builder_is_never_built (H := Fixture.codecs)
              Fixture.svc Fixture.requested_world 1 task
              [EvCreate 300 7 Fixture.one_file_req; EvBegin 301 2;
               EvFinish 302 2; EvClean 400000] sys eq_refl Hfind)
    as (Hstill & Hnone & _ & _).
  - intros t Ht _. apply list_elem_of_In in Ht. vm_compute in Ht.
    destruct Ht as [<-|[]]. vm_compute. discriminate.
  - exact Hrun.
  - exists sys, task. split; [reflexivity|]. split; [exact Hstill|].
    split.
    + vm_compute in Hfind. by injection Hfind as <-.
    + simpl. rewrite bool_decide_eq_false_2; [done|].
      intros Hin. apply Hnone, elem_of_app. by left.
Defined.

(** ** Upload ids *)





